(** * bayeslite session tracer (sessions.py): a shallow embedding

    The tracer keeps a log of the queries a BayesDB handle executes in two
    SQLite tables, [bayesdb_session] and [bayesdb_session_entries].  The
    development has three layers:

    - [Json]   : the part of Python's [json.dumps] the tracer relies on;
    - [Sqlite] : the two tables, [sqlite_sequence] and the connection's
                 last insert rowid, with one function per SQL statement
                 that sessions.py issues;
    - the methods of [SessionTracer], written with explicit state passing.

    Python integers are [Z]; a timestamp ([time.time()], column
    [time REAL]) is a finite double, which is a rational, so it is kept
    as a [Q] and only compared.  Text is a [string] whose characters are
    code points below 256. *)

From Stdlib Require Import ZArith QArith String Ascii List Lia.
From stdpp Require Import base decidable option list list_numbers gmap strings pretty sorting.

Set Warnings "-register-all".
Local Open Scope Z_scope.

(* ===================================================================== *)
(** ** json.dumps *)
(* ===================================================================== *)

Module Json.

(** The Python values that [json.dumps] encodes with its default
    encoder: None, booleans, integers, floats, text, lists, tuples and
    dictionaries with text keys (kept in iteration order). *)
Inductive pyval : Type :=
| PNone
| PBool (b : bool)
| PInt (n : Z)
| PFloat (x : Q)
| PStr (s : string)
| PList (items : list pyval)
| PTuple (items : list pyval)
| PDict (items : list (string * pyval)).

Definition dquote : ascii := ascii_of_nat 34.
Definition bslash : ascii := ascii_of_nat 92.

Definition hex_digit (n : nat) : ascii :=
  if (n <? 10)%nat then ascii_of_nat (48 + n) else ascii_of_nat (87 + n).

(** [ESCAPE_DCT] and the [replace] function of
    [json.encoder.py_encode_basestring_ascii]: quote and backslash get a
    backslash, the five short escapes are used, printable ASCII (space
    to tilde) is kept, anything else becomes a four-digit \u escape. *)
Definition escape_char (c : ascii) : string :=
  let n := nat_of_ascii c in
  if (n =? 34)%nat then String bslash (String dquote EmptyString)
  else if (n =? 92)%nat then String bslash (String bslash EmptyString)
  else if (n =? 8)%nat then String bslash "b"
  else if (n =? 12)%nat then String bslash "f"
  else if (n =? 10)%nat then String bslash "n"
  else if (n =? 13)%nat then String bslash "r"
  else if (n =? 9)%nat then String bslash "t"
  else if ((32 <=? n) && (n <=? 126))%nat then String c EmptyString
  else String bslash
         ("u00" +:+ String (hex_digit (n / 16)) (String (hex_digit (n mod 16)) EmptyString)).

Fixpoint escape (s : string) : string :=
  match s with
  | EmptyString => EmptyString
  | String c rest => escape_char c +:+ escape rest
  end.

Definition encode_basestring_ascii (s : string) : string :=
  String dquote (escape s +:+ String dquote EmptyString).

(** [json.dumps(v)] with the default separators [', '] and [': '].  The
    text of a float is [float.__repr__], which is outside this
    development: it is the parameter [float_repr]. *)
Fixpoint dumps (float_repr : Q -> string) (v : pyval) : string :=
  match v with
  | PNone => "null"
  | PBool true => "true"
  | PBool false => "false"
  | PInt n => pretty n
  | PFloat x => float_repr x
  | PStr s => encode_basestring_ascii s
  | PList items => "[" +:+ String.concat ", " (map (dumps float_repr) items) +:+ "]"
  | PTuple items => "[" +:+ String.concat ", " (map (dumps float_repr) items) +:+ "]"
  | PDict items =>
      "{" +:+ String.concat ", "
               (map (fun kv => encode_basestring_ascii (fst kv) +:+ ": "
                               +:+ dumps float_repr (snd kv)) items)
          +:+ "}"
  end.

(** What an engine may hand over as bindings: the values above and
    buffers, the objects that hold SQLite blobs.  The default encoder
    has no encoding for a buffer, alone or inside a list, a tuple or a
    dictionary. *)
Inductive pyobject : Type :=
| ONone
| OBool (b : bool)
| OInt (n : Z)
| OFloat (x : Q)
| OStr (s : string)
| OList (items : list pyobject)
| OTuple (items : list pyobject)
| ODict (items : list (string * pyobject))
| OBuffer (bytes : string).

(** The value the encoder finds in an object; [None] when the object
    holds something it rejects. *)
Fixpoint encode (o : pyobject) : option pyval :=
  match o with
  | ONone => Some PNone
  | OBool b => Some (PBool b)
  | OInt n => Some (PInt n)
  | OFloat x => Some (PFloat x)
  | OStr s => Some (PStr s)
  | OList items => PList <$> mapM encode items
  | OTuple items => PTuple <$> mapM encode items
  | ODict items =>
      PDict <$> mapM (fun kv => match encode (snd kv) with
                                | Some v => Some (fst kv, v)
                                | None => None
                                end) items
  | OBuffer _ => None
  end.

(** [json.dumps(o)] for any object: the text, or [None] when the
    encoder raises TypeError. *)
Definition json_dumps (float_repr : Q -> string) (o : pyobject) : option string :=
  dumps float_repr <$> encode o.

End Json.

(* ===================================================================== *)
(** ** The SQLite store *)
(* ===================================================================== *)

Module Sqlite.

(** [bayesdb_session(id INTEGER PRIMARY KEY AUTOINCREMENT, ...)].

    Modelled from the spec: the CREATE TABLE statements are not part of
    sessions.py; a session row is kept as its id, the only column the
    tracer reads or relies on. *)
Record session_row : Type := { s_id : Z }.

(** [bayesdb_session_entries(id INTEGER PRIMARY KEY AUTOINCREMENT,
    session_id INTEGER, time REAL, type TEXT, data TEXT,
    completed INTEGER DEFAULT 0)], columns in declaration order.

    Modelled from the spec: the CREATE TABLE statement is not part of
    sessions.py. *)
Record entry_row : Type := {
  e_id : Z;
  e_session_id : Z;
  e_time : Q;
  e_type : string;
  e_data : string;
  e_completed : Z
}.

(** One connection: the two tables in rowid order, the rows of
    [sqlite_sequence] keyed by table name, and the value that
    [SELECT last_insert_rowid()] returns. *)
Record database : Type := {
  bayesdb_session : list session_row;
  bayesdb_session_entries : list entry_row;
  sqlite_sequence : gmap string Z;
  last_insert_rowid : Z
}.

Definition empty_database : database :=
  {| bayesdb_session := []; bayesdb_session_entries := [];
     sqlite_sequence := ∅; last_insert_rowid := 0 |}.

Fixpoint max_rowid (ids : list Z) : option Z :=
  match ids with
  | [] => None
  | i :: rest =>
      match max_rowid rest with
      | None => Some i
      | Some m => Some (Z.max i m)
      end
  end.

(** The rowid an AUTOINCREMENT table gives to a new row: one more than
    the largest rowid in the table (1 for an empty table), and at least
    one more than the value remembered in [sqlite_sequence] (0 when the
    table has no row there).  The error SQLite reports when the largest
    64-bit rowid has been used is not modelled: rowids are unbounded. *)
Definition new_rowid (ids : list Z) (seq : option Z) : Z :=
  Z.max (match max_rowid ids with None => 1 | Some m => m + 1 end)
        (default 0 seq + 1).

(** [INSERT INTO bayesdb_session DEFAULT VALUES;] *)
Definition insert_session (d : database) : database :=
  let v := new_rowid (map s_id (bayesdb_session d))
                     (sqlite_sequence d !! "bayesdb_session") in
  {| bayesdb_session := bayesdb_session d ++ [ {| s_id := v |} ];
     bayesdb_session_entries := bayesdb_session_entries d;
     sqlite_sequence := <["bayesdb_session" := v]> (sqlite_sequence d);
     last_insert_rowid := v |}.

(** [INSERT INTO bayesdb_session_entries (session_id, time, type, data)
    VALUES (?,?,?,?);]  The column [completed] takes its default, 0. *)
Definition insert_entry (session_id : Z) (t : Q) (type data : string)
    (d : database) : database :=
  let v := new_rowid (map e_id (bayesdb_session_entries d))
                     (sqlite_sequence d !! "bayesdb_session_entries") in
  {| bayesdb_session := bayesdb_session d;
     bayesdb_session_entries :=
       bayesdb_session_entries d ++
       [ {| e_id := v; e_session_id := session_id; e_time := t;
            e_type := type; e_data := data; e_completed := 0 |} ];
     sqlite_sequence := <["bayesdb_session_entries" := v]> (sqlite_sequence d);
     last_insert_rowid := v |}.

Definition set_completed (e : entry_row) : entry_row :=
  {| e_id := e_id e; e_session_id := e_session_id e; e_time := e_time e;
     e_type := e_type e; e_data := e_data e; e_completed := 1 |}.

(** [UPDATE bayesdb_session_entries SET completed=1 WHERE id=?;] *)
Definition update_completed (entry_id : Z) (d : database) : database :=
  {| bayesdb_session := bayesdb_session d;
     bayesdb_session_entries :=
       map (fun e => if decide (e_id e = entry_id) then set_completed e else e)
           (bayesdb_session_entries d);
     sqlite_sequence := sqlite_sequence d;
     last_insert_rowid := last_insert_rowid d |}.

(** [SELECT COUNT( * ) FROM bayesdb_session_entries
     WHERE completed=0 AND session_id=?;] *)
Definition count_uncompleted (session_id : Z) (d : database) : Z :=
  Z.of_nat (length (filter (fun e => e_completed e = 0 /\ e_session_id e = session_id)
                           (bayesdb_session_entries d))).

(** [DELETE FROM bayesdb_session_entries;] *)
Definition delete_entries (d : database) : database :=
  {| bayesdb_session := bayesdb_session d;
     bayesdb_session_entries := [];
     sqlite_sequence := sqlite_sequence d;
     last_insert_rowid := last_insert_rowid d |}.

(** [DELETE FROM bayesdb_session;] *)
Definition delete_sessions (d : database) : database :=
  {| bayesdb_session := [];
     bayesdb_session_entries := bayesdb_session_entries d;
     sqlite_sequence := sqlite_sequence d;
     last_insert_rowid := last_insert_rowid d |}.

(** [DELETE FROM sqlite_sequence WHERE name='bayesdb_session'
     OR name='bayesdb_session_entries';] *)
Definition delete_sequences (d : database) : database :=
  {| bayesdb_session := bayesdb_session d;
     bayesdb_session_entries := bayesdb_session_entries d;
     sqlite_sequence :=
       delete "bayesdb_session_entries" (delete "bayesdb_session" (sqlite_sequence d));
     last_insert_rowid := last_insert_rowid d |}.

(** [SELECT * FROM bayesdb_session;] *)
Definition select_sessions (d : database) : list session_row :=
  bayesdb_session d.

(** [a] comes no later than [b] in [ORDER BY time DESC]. *)
Definition time_desc (a b : entry_row) : Prop := Qle (e_time b) (e_time a).

#[global] Instance time_desc_dec a b : Decision (time_desc a b).
Proof. unfold time_desc, Qle. apply _. Defined.

(** [SELECT * FROM bayesdb_session_entries WHERE session_id == ?
     ORDER BY time DESC].  SQLite leaves the order of rows with equal
     keys open; the sorter here is a merge sort. *)
Definition select_entries (session_id : Z) (d : database) : list entry_row :=
  merge_sort time_desc
    (filter (fun e => e_session_id e = session_id) (bayesdb_session_entries d)).

End Sqlite.

(* ===================================================================== *)
(** ** SessionTracer *)
(* ===================================================================== *)

Import Json Sqlite.

(** Modelled from the spec: the BayesDB handle is defined outside
    sessions.py.  The tracer uses its SQLite connection and its two
    registration points, [trace]/[untrace] for BQL and
    [sql_trace]/[sql_untrace] for SQL; registration is kept as one flag
    per hook. *)
Record BayesDB : Type := {
  sqlite3 : database;
  bql_traced : bool;
  sql_traced : bool
}.

(** The attributes of a tracer object.  [out] holds the lines the tracer
    has printed to its stream, oldest first.  The attributes
    [bql_tracer] and [sql_tracer] are the methods [_bql_trace] and
    [_sql_trace] themselves and carry no state. *)
Record SessionTracer : Type := {
  out : list string;
  bdb : BayesDB;
  session_id : Z
}.

Inductive exn : Type :=
| ValueError (msg : string)
| TypeError
| RequestException.

(** One call of [requests.post(url, data=form)]. *)
Definition request : Type := (string * list (string * string))%type.

Definition with_sqlite3 (d : database) (self : SessionTracer) : SessionTracer :=
  {| out := out self;
     bdb := {| sqlite3 := d; bql_traced := bql_traced (bdb self);
               sql_traced := sql_traced (bdb self) |};
     session_id := session_id self |}.

Definition db (self : SessionTracer) : database := sqlite3 (bdb self).

Definition WARNING : string :=
  "WARNING: Previous session contains uncompleted entries. " +:+
  "This may be due to a bad termination or crash of the " +:+
  "previous session. Consider uploading the session with send_session_data().".

Definition probcomp_url : string :=
  "http://probcomp.csail.mit.edu/bayesdb/save_sessions.cgi".

(** A row as the cursor yields it: a tuple of the column values in
    declaration order. *)
Definition entry_tuple (e : entry_row) : pyval :=
  PTuple [PInt (e_id e); PInt (e_session_id e); PFloat (e_time e);
          PStr (e_type e); PStr (e_data e); PInt (e_completed e)].

Section Methods.

(** [float.__repr__], used by [json.dumps]. *)
Variable float_repr : Q -> string.

(** The remote endpoint: the response text of a POST, or [None] when
    [requests.post] raises.  The first argument is the number of POSTs
    that [send_session_data] has issued before this one, so that the
    answer to a request may differ from the answer to an equal request
    made earlier. *)
Variable http_post : nat -> string -> list (string * string) -> option string.

Definition _print (content : string) (self : SessionTracer) : SessionTracer :=
  {| out := out self ++ [content]; bdb := bdb self; session_id := session_id self |}.

Definition start_saving_sessions (self : SessionTracer) : SessionTracer :=
  {| out := out self;
     bdb := {| sqlite3 := db self; bql_traced := true; sql_traced := true |};
     session_id := session_id self |}.

Definition stop_saving_sessions (self : SessionTracer) : SessionTracer :=
  {| out := out self;
     bdb := {| sqlite3 := db self; bql_traced := false; sql_traced := false |};
     session_id := session_id self |}.

Definition _start_new_session (self : SessionTracer) : SessionTracer :=
  let d := insert_session (db self) in
  {| out := out self; bdb := bdb (with_sqlite3 d self);
     session_id := last_insert_rowid d |}.

Definition _finish (entry_id : Z) (self : SessionTracer) : SessionTracer :=
  with_sqlite3 (update_completed entry_id (db self)) self.

(** [t] is the reading of [time.time()].  When [json.dumps] raises, the
    call raises before any statement is executed and the tracer is as it
    was.  Otherwise the result is the tracer after the insert and the
    completion callback, a closure over the id of the new entry that
    acts on the tracer as it is when called. *)
Definition _trace (type query : string) (bindings : pyobject) (t : Q)
    (self : SessionTracer)
    : exn + SessionTracer * (SessionTracer -> SessionTracer) :=
  match json_dumps float_repr bindings with
  | None => inl TypeError
  | Some text =>
      let data := query +:+ text in
      let d := insert_entry (session_id self) t type data (db self) in
      let entry_id := last_insert_rowid d in
      inr (with_sqlite3 d self, fun self' => _finish entry_id self')
  end.

Definition _check_unfinished_entries (self : SessionTracer) : SessionTracer * Z :=
  let uncompleted_entries := count_uncompleted (session_id self - 1) (db self) in
  if (0 <? uncompleted_entries)%Z
  then (_print WARNING self, uncompleted_entries)
  else (self, uncompleted_entries).

Definition _bql_trace (query : string) (bindings : pyobject) (t : Q)
    (self : SessionTracer)
    : exn + SessionTracer * (SessionTracer -> SessionTracer) :=
  _trace "bql" query bindings t self.

Definition _sql_trace (query : string) (bindings : pyobject) (t : Q)
    (self : SessionTracer)
    : exn + SessionTracer * (SessionTracer -> SessionTracer) :=
  _trace "sql" query bindings t self.

(** [SessionTracer(bdb)].  The attribute [session_id] does not exist
    until [_start_new_session] assigns it; nothing reads it before. *)
Definition __init__ (bdb0 : BayesDB) : SessionTracer :=
  let self := {| out := []; bdb := bdb0; session_id := 0 |} in
  let self := start_saving_sessions self in
  let self := _start_new_session self in
  fst (_check_unfinished_entries self).

Definition clear_all_sessions (self : SessionTracer) : SessionTracer :=
  let self := with_sqlite3 (delete_entries (db self)) self in
  let self := with_sqlite3 (delete_sessions (db self)) self in
  let self := with_sqlite3 (delete_sequences (db self)) self in
  _start_new_session self.

Definition list_sessions (self : SessionTracer) : list session_row :=
  select_sessions (db self).

Definition current_session_id (self : SessionTracer) : Z := session_id self.

(** The value handed to [json.dumps]: [list(entries)]. *)
Definition dump_session_rows (sid : Z) (self : SessionTracer) : list pyval :=
  map entry_tuple (select_entries sid (db self)).

Definition dump_session_as_json (sid : Z) (self : SessionTracer) : exn + string :=
  if ((session_id self <? sid) || (sid <? 1))%Z
  then inl (ValueError ("No such session (" +:+ pretty sid +:+ ")"))
  else inr (dumps float_repr (PList (dump_session_rows sid self))).

Definition dump_current_session_as_json (self : SessionTracer) : exn + string :=
  dump_session_as_json (session_id self) self.

(** The body of the [for] loop of [send_session_data], over the ids that
    [range] still has to deliver, after [n] POSTs.  The result is the
    tracer, the POSTs issued in order, and the exception that ended the
    loop, if any. *)
Fixpoint send_loop (ids : list Z) (n : nat) (self : SessionTracer)
    : SessionTracer * list request * option exn :=
  match ids with
  | [] => (self, [], None)
  | id :: rest =>
      let self := _print ("Sending session " +:+ pretty id +:+ " to "
                          +:+ probcomp_url +:+ " ...") self in
      match dump_session_as_json id self with
      | inl e => (self, [], Some e)
      | inr json_string =>
          let self := _print json_string self in
          let form := [("session_json", json_string)] in
          match http_post n probcomp_url form with
          | None => (self, [(probcomp_url, form)], Some RequestException)
          | Some text =>
              let '(self, posts, r) :=
                send_loop rest (S n) (_print ("Response: " +:+ text) self) in
              (self, (probcomp_url, form) :: posts, r)
          end
      end
  end.

Definition send_session_data (self : SessionTracer)
    : SessionTracer * list request * option exn :=
  send_loop (seqZ 1 (session_id self)) 0 self.

End Methods.

(* ===================================================================== *)
(** ** Vocabulary of the statements *)
(* ===================================================================== *)

Section Vocabulary.

Variable float_repr : Q -> string.

(** The row that [_trace] adds for bindings that encode as [bindings]. *)
Definition traced_entry (type query : string) (bindings : pyval) (t : Q)
    (self : SessionTracer) : entry_row :=
  {| e_id := new_rowid (map e_id (bayesdb_session_entries (db self)))
                       (sqlite_sequence (db self) !! "bayesdb_session_entries");
     e_session_id := session_id self;
     e_time := t;
     e_type := type;
     e_data := query +:+ dumps float_repr bindings;
     e_completed := 0 |}.

(** The tracer after the insert of [_trace], for bindings that encode
    as [bindings]. *)
Definition traced (type query : string) (bindings : pyval) (t : Q)
    (self : SessionTracer) : SessionTracer :=
  with_sqlite3
    (insert_entry (session_id self) t type (query +:+ dumps float_repr bindings) (db self))
    self.

(** What an engine does with a tracer between two points of interest:
    it starts queries and it calls completion callbacks.  A trace call
    that raises leaves the tracer as it was. *)
Inductive op : Type :=
| OpTrace (type query : string) (bindings : pyobject) (t : Q)
| OpFinish (entry_id : Z).

Definition run_op (self : SessionTracer) (o : op) : SessionTracer :=
  match o with
  | OpTrace type query bindings t =>
      match _trace float_repr type query bindings t self with
      | inr (self', _) => self'
      | inl _ => self
      end
  | OpFinish entry_id => _finish entry_id self
  end.

Definition run_ops (ops : list op) (self : SessionTracer) : SessionTracer :=
  fold_left run_op ops self.

(** The number of rows of session [sid] with [completed = 0]. *)
Definition uncompleted_in (sid : Z) (entries : list entry_row) : Z :=
  Z.of_nat (length (filter (fun e => e_completed e = 0 /\ e_session_id e = sid) entries)).

(** A JSON object keyed by the six column names. *)
Definition entry_object (v : pyval) : Prop :=
  exists items, v = PDict items /\
    map fst items = ["id"; "session_id"; "time"; "type"; "data"; "completed"].

(** Every entry belongs to a session id that the session table has
    handed out, and the remembered sequence value is not negative. *)
Definition consistent (d : database) : Prop :=
  0 <= default 0 (sqlite_sequence d !! "bayesdb_session") /\
  Forall (fun e => e_session_id e <= default 0 (sqlite_sequence d !! "bayesdb_session"))
         (bayesdb_session_entries d).

(** A tracer over a consistent store whose own session id has been
    handed out by the session table. *)
Definition tracer_consistent (self : SessionTracer) : Prop :=
  consistent (db self) /\
  session_id self <= default 0 (sqlite_sequence (db self) !! "bayesdb_session").

(** The POST that [send_session_data] issues for session [sid]. *)
Definition session_post (sid : Z) (self : SessionTracer) : request :=
  (probcomp_url,
   [("session_json", dumps float_repr (PList (dump_session_rows sid self)))]).

(** A history of one store: the engine drives the tracer ([StepOp]),
    the log is cleared, or the tracer is replaced by a new one
    constructed over the same handle (the next run). *)
Inductive step : Type :=
| StepOp (o : op)
| StepClear
| StepRestart.

Definition run_step (self : SessionTracer) (st : step) : SessionTracer :=
  match st with
  | StepOp o => run_op self o
  | StepClear => clear_all_sessions self
  | StepRestart => __init__ (bdb self)
  end.

Definition run_steps (steps : list step) (self : SessionTracer) : SessionTracer :=
  fold_left run_step steps self.

(** A query that runs to its end: the engine calls the trace callback
    and then the completion callback it got back.  When the trace call
    raises there is no callback and the tracer is as it was. *)
Definition traced_and_completed (self : SessionTracer)
    (q : string * string * pyobject * Q) : SessionTracer :=
  let '(type, query, bindings, t) := q in
  match _trace float_repr type query bindings t self with
  | inr (self', finish) => finish self'
  | inl _ => self
  end.

Definition run_completed (qs : list (string * string * pyobject * Q))
    (self : SessionTracer) : SessionTracer :=
  fold_left traced_and_completed qs self.

(** The session of the tracer is the newest one of the store: its row
    is the last row of the session table, no row has a larger id, and
    [sqlite_sequence] remembers its id. *)
Definition newest (self : SessionTracer) : Prop :=
  last (bayesdb_session (db self)) = Some {| s_id := session_id self |}
  /\ sqlite_sequence (db self) !! "bayesdb_session" = Some (session_id self)
  /\ Forall (fun r => s_id r <= session_id self) (bayesdb_session (db self)).

(** Both tables list their rows by strictly increasing id. *)
Definition keys_increasing (d : database) : Prop :=
  StronglySorted Z.lt (map s_id (bayesdb_session d))
  /\ StronglySorted Z.lt (map e_id (bayesdb_session_entries d)).

(** The three lines [send_session_data] prints for a session whose POST
    is answered with [text]. *)
Definition upload_lines (sid : Z) (self : SessionTracer) (text : string) : list string :=
  ["Sending session " +:+ pretty sid +:+ " to " +:+ probcomp_url +:+ " ...";
   dumps float_repr (PList (dump_session_rows sid self));
   "Response: " +:+ text].

End Vocabulary.

(* ===================================================================== *)
(** ** Sample runs *)
(* ===================================================================== *)

(** A stand-in for [float.__repr__] on small non-negative values: the
    integer part and one decimal digit. *)
Definition sample_repr (x : Q) : string :=
  pretty (Qnum x / Zpos (Qden x)) +:+ "."
  +:+ pretty ((10 * Qnum x / Zpos (Qden x)) mod 10).

(** An endpoint that answers every POST. *)
Definition sample_post (n : nat) (url : string) (form : list (string * string))
    : option string :=
  Some "OK".

Definition fresh_bdb : BayesDB :=
  {| sqlite3 := empty_database; bql_traced := false; sql_traced := false |}.

(** First run: one BQL query at time 0.5, never completed, and the SQL
    query it compiles to at time 1.5, completed. *)
Definition first_run : SessionTracer :=
  let self := __init__ fresh_bdb in
  match _bql_trace sample_repr "SELECT 1;" (OTuple []) (1 # 2) self with
  | inl _ => self
  | inr (self, finish_bql) =>
      match _sql_trace sample_repr "SELECT ?" (OTuple [OInt 1]) (3 # 2) self with
      | inl _ => self
      | inr (self, finish_sql) => finish_sql self
      end
  end.

(** Second run: a new tracer over the same store. *)
Definition second_run : SessionTracer := __init__ (bdb first_run).

(** An endpoint that answers the first POST and raises on the second. *)
Definition flaky_post (n : nat) (url : string) (form : list (string * string))
    : option string :=
  if decide (n = 1%nat) then None else Some "OK".

(** Two runs without a query: two sessions with the same, empty dump. *)
Definition two_empty_sessions : SessionTracer :=
  __init__ (bdb (__init__ fresh_bdb)).

(** The tracer and the callback of the first query of a run. *)
Definition traced_once : SessionTracer :=
  traced sample_repr "bql" "SELECT 1;" (PTuple []) (1 # 2) (__init__ fresh_bdb).

Definition finish_once : SessionTracer -> SessionTracer :=
  fun self' => _finish 1 self'.

(** A query traced before a clear and another one traced after it. *)
Definition before_clear : exn + SessionTracer * (SessionTracer -> SessionTracer) :=
  _bql_trace sample_repr "SELECT 1;" (OTuple []) (1 # 2) (__init__ fresh_bdb).

Definition after_clear (self : SessionTracer)
    : exn + SessionTracer * (SessionTracer -> SessionTracer) :=
  _bql_trace sample_repr "SELECT 2;" (OTuple []) (3 # 2) (clear_all_sessions self).

(* ===================================================================== *)
(** ** Rowids *)
(* ===================================================================== *)

Lemma max_rowid_upper (ids : list Z) (m : Z) :
  max_rowid ids = Some m -> Forall (fun i => i <= m) ids.
Proof.
  revert m. induction ids as [|i rest IH]; intros m Hm; [constructor|].
  simpl in Hm. destruct (max_rowid rest) as [m'|] eqn:Hrest.
  - injection Hm as <-. constructor; [lia|].
    eapply Forall_impl; [apply IH; reflexivity|]. simpl. intros. lia.
  - injection Hm as <-. destruct rest; [repeat constructor; lia|].
    simpl in Hrest. destruct (max_rowid rest); discriminate.
Qed.

(** A new rowid is larger than every rowid of the table. *)
Lemma new_rowid_fresh (ids : list Z) (seq : option Z) :
  Forall (fun i => i < new_rowid ids seq) ids.
Proof.
  unfold new_rowid. destruct (max_rowid ids) as [m|] eqn:Hm.
  - eapply Forall_impl; [apply max_rowid_upper, Hm|]. simpl. intros. lia.
  - destruct ids; [constructor|]. simpl in Hm.
    destruct (max_rowid ids); discriminate.
Qed.

(** ... and larger than the value remembered in [sqlite_sequence]. *)
Lemma new_rowid_above_sequence (ids : list Z) (seq : option Z) :
  default 0 seq < new_rowid ids seq.
Proof. unfold new_rowid. lia. Qed.

Lemma new_rowid_empty : new_rowid [] None = 1.
Proof. reflexivity. Qed.

(* ===================================================================== *)
(** ** Recording a query *)
(* ===================================================================== *)

(** Decides the guard of [dump_session_as_json] from the facts about the
    ids in the context. *)
Ltac range_guard b :=
  match goal with
  | |- context [((session_id ?s <? ?i) || (?i <? 1))%Z] =>
      assert (((session_id s <? i) || (i <? 1))%Z = b) as ->
        by (first [apply orb_true_iff | apply orb_false_iff];
            rewrite ?Z.ltb_lt, ?Z.ltb_ge; lia)
  end.

Section Properties.

Variable float_repr : Q -> string.
Variable http_post : nat -> string -> list (string * string) -> option string.

Lemma _trace_encodable type query bindings v t self :
  encode bindings = Some v ->
  _trace float_repr type query bindings t self
  = inr (traced float_repr type query v t self,
         fun self' => _finish (e_id (traced_entry float_repr type query v t self)) self').
Proof. intros Hv. unfold _trace, json_dumps. rewrite Hv. reflexivity. Qed.

Lemma _trace_unencodable type query bindings t self :
  encode bindings = None ->
  _trace float_repr type query bindings t self = inl TypeError.
Proof. intros Hv. unfold _trace, json_dumps. rewrite Hv. reflexivity. Qed.

Lemma _trace_returns type query bindings t self self1 finish :
  _trace float_repr type query bindings t self = inr (self1, finish) ->
  exists v,
    encode bindings = Some v
    /\ self1 = traced float_repr type query v t self
    /\ finish
       = (fun self' => _finish (e_id (traced_entry float_repr type query v t self)) self').
Proof.
  intros H. destruct (encode bindings) as [v|] eqn:Hv.
  - rewrite (_trace_encodable _ _ _ v) in H by exact Hv.
    injection H as <- <-. exists v. repeat split.
  - rewrite _trace_unencodable in H by exact Hv. discriminate.
Qed.

Lemma run_op_trace type query bindings t self :
  run_op float_repr self (OpTrace type query bindings t)
  = match encode bindings with
    | Some v => traced float_repr type query v t self
    | None => self
    end.
Proof.
  unfold run_op, _trace, json_dumps. destruct (encode bindings); reflexivity.
Qed.

Lemma _trace_entries type query bindings t self :
  bayesdb_session_entries (db (traced float_repr type query bindings t self))
  = bayesdb_session_entries (db self) ++ [traced_entry float_repr type query bindings t self].
Proof. reflexivity. Qed.

Lemma traced_entry_fresh type query bindings t self :
  Forall (fun e => e_id e < e_id (traced_entry float_repr type query bindings t self))
         (bayesdb_session_entries (db self)).
Proof.
  pose proof (new_rowid_fresh (map e_id (bayesdb_session_entries (db self)))
                (sqlite_sequence (db self) !! "bayesdb_session_entries")) as H.
  rewrite Forall_fmap in H. exact H.
Qed.

(** C1, as the code has it.  Let [q] be a query text, [b] the bindings
    and [t] the clock reading.  When [json.dumps] encodes [b] as the
    text [j], either trace callback returns, and the entry table is as
    it was plus exactly one new row at the end; the row has a fresh id,
    the current session id, the tag of the callback, [completed = 0],
    and its data is [q] followed by [j].  When [json.dumps] has no
    encoding for [b], either callback raises TypeError, before any
    insert.  For the text [SELECT 1;] and the empty dictionary the data
    is [SELECT 1;{}]. *)
Theorem trace_inserts_one_pending_entry (q : string) (b : pyobject) (t : Q)
    (self : SessionTracer) :
  (forall j, json_dumps float_repr b = Some j ->
     (exists self1 finish e,
         _bql_trace float_repr q b t self = inr (self1, finish)
         /\ bayesdb_session_entries (db self1) = bayesdb_session_entries (db self) ++ [e]
         /\ e_completed e = 0
         /\ e_data e = q +:+ j
         /\ e_type e = "bql" /\ e_session_id e = session_id self /\ e_time e = t
         /\ Forall (fun e0 => e_id e0 < e_id e) (bayesdb_session_entries (db self)))
     /\ (exists self1 finish e,
         _sql_trace float_repr q b t self = inr (self1, finish)
         /\ bayesdb_session_entries (db self1) = bayesdb_session_entries (db self) ++ [e]
         /\ e_completed e = 0
         /\ e_data e = q +:+ j
         /\ e_type e = "sql" /\ e_session_id e = session_id self /\ e_time e = t
         /\ Forall (fun e0 => e_id e0 < e_id e) (bayesdb_session_entries (db self))))
  /\ (json_dumps float_repr b = None ->
      _bql_trace float_repr q b t self = inl TypeError
      /\ _sql_trace float_repr q b t self = inl TypeError)
  /\ (exists self1 finish e,
      _bql_trace float_repr "SELECT 1;" (ODict []) t self = inr (self1, finish)
      /\ last (bayesdb_session_entries (db self1)) = Some e
      /\ e_data e = "SELECT 1;{}").
Proof.
  split; [|split].
  - intros j Hj. unfold json_dumps in Hj.
    destruct (encode b) as [v|] eqn:Hv; [|discriminate].
    injection Hj as <-.
    split.
    + exists (traced float_repr "bql" q v t self),
             (fun self' => _finish (e_id (traced_entry float_repr "bql" q v t self)) self'),
             (traced_entry float_repr "bql" q v t self).
      split; [apply _trace_encodable, Hv|].
      split; [apply _trace_entries|].
      repeat split; apply traced_entry_fresh.
    + exists (traced float_repr "sql" q v t self),
             (fun self' => _finish (e_id (traced_entry float_repr "sql" q v t self)) self'),
             (traced_entry float_repr "sql" q v t self).
      split; [apply _trace_encodable, Hv|].
      split; [apply _trace_entries|].
      repeat split; apply traced_entry_fresh.
  - intros Hj. unfold json_dumps in Hj.
    destruct (encode b) as [v|] eqn:Hv; [discriminate|].
    split; apply _trace_unencodable, Hv.
  - exists (traced float_repr "bql" "SELECT 1;" (PDict []) t self),
           (fun self' =>
              _finish (e_id (traced_entry float_repr "bql" "SELECT 1;" (PDict []) t self)) self'),
           (traced_entry float_repr "bql" "SELECT 1;" (PDict []) t self).
    split; [reflexivity|]. split; [|reflexivity].
    rewrite _trace_entries. apply last_snoc.
Qed.


(* ===================================================================== *)
(** ** The completion callback *)
(* ===================================================================== *)

Lemma set_completed_idem e : set_completed (set_completed e) = set_completed e.
Proof. reflexivity. Qed.

Lemma update_completed_idem i d :
  update_completed i (update_completed i d) = update_completed i d.
Proof.
  unfold update_completed. simpl. f_equal.
  rewrite map_map. apply map_ext. intros e.
  destruct (decide (e_id e = i)) as [Heq|Hne]; simpl.
  - rewrite decide_True by exact Heq. reflexivity.
  - rewrite decide_False by exact Hne. reflexivity.
Qed.

Lemma _finish_idem i self : _finish i (_finish i self) = _finish i self.
Proof.
  unfold _finish, with_sqlite3, db. simpl.
  rewrite update_completed_idem. reflexivity.
Qed.

Lemma iter_idem {A} (f : A -> A) (n : nat) (x : A) :
  (forall y, f (f y) = f y) -> Nat.iter (S n) f x = f x.
Proof.
  intros Hf. induction n as [|n IH]; [reflexivity|].
  change (Nat.iter (S (S n)) f x) with (f (Nat.iter (S n) f x)).
  rewrite IH. apply Hf.
Qed.

(** C9. Calling the completion callback that a trace call has returned
    [S n] times, in any state of the tracer, gives the state that one
    call gives. *)
Theorem completion_callback_idempotent (type q : string) (b : pyobject) (t : Q)
    (self self1 : SessionTracer) (finish : SessionTracer -> SessionTracer)
    (s : SessionTracer) (n : nat) :
  _trace float_repr type q b t self = inr (self1, finish) ->
  finish (finish s) = finish s /\ Nat.iter (S n) finish s = finish s.
Proof.
  intros Htrace. apply _trace_returns in Htrace as (v & _ & _ & ->).
  assert (forall y,
             _finish (e_id (traced_entry float_repr type q v t self))
               (_finish (e_id (traced_entry float_repr type q v t self)) y)
             = _finish (e_id (traced_entry float_repr type q v t self)) y) as Hidem
    by (intros y; apply _finish_idem).
  split; [apply Hidem | apply iter_idem, Hidem].
Qed.

(** The row added by a trace call keeps its place and its id while the
    engine starts further queries and completes any of them: rows before
    it have smaller ids, rows after it larger ones, and the row itself
    changes at most in its [completed] column. *)
Lemma run_op_keeps_entry (e : entry_row) (s : SessionTracer) (o : op) :
  (exists before e' after,
      bayesdb_session_entries (db s) = before ++ e' :: after
      /\ (e' = e \/ e' = set_completed e)
      /\ Forall (fun x => e_id x < e_id e) before
      /\ Forall (fun x => e_id e < e_id x) after) ->
  (exists before e' after,
      bayesdb_session_entries (db (run_op float_repr s o)) = before ++ e' :: after
      /\ (e' = e \/ e' = set_completed e)
      /\ Forall (fun x => e_id x < e_id e) before
      /\ Forall (fun x => e_id e < e_id x) after).
Proof.
  intros (before & e' & after & Hs & He' & Hb & Ha).
  destruct o as [type query bindings t | j]; [rewrite run_op_trace | cbn [run_op]].
  - destruct (encode bindings) as [v|]; [|exists before, e', after; auto].
    exists before, e', (after ++ [traced_entry float_repr type query v t s]).
    rewrite _trace_entries, Hs, <- app_assoc. simpl.
    repeat split; try assumption.
    apply Forall_app. split; [assumption|].
    constructor; [|constructor].
    pose proof (traced_entry_fresh type query v t s) as Hf.
    rewrite Hs in Hf. apply Forall_app in Hf as [_ Hf].
    apply Forall_cons in Hf as [Hf _].
    destruct He' as [-> | ->]; exact Hf.
  - exists (map (fun x => if decide (e_id x = j) then set_completed x else x) before),
           (if decide (e_id e' = j) then set_completed e' else e'),
           (map (fun x => if decide (e_id x = j) then set_completed x else x) after).
    unfold _finish, db, with_sqlite3, update_completed; simpl.
    fold (db s). rewrite Hs, map_app. simpl.
    repeat split.
    + destruct (decide (e_id e' = j)); [|assumption].
      right. destruct He' as [-> | ->]; reflexivity.
    + rewrite Forall_fmap. eapply Forall_impl; [exact Hb|].
      intros x Hx. simpl. destruct (decide (e_id x = j)); exact Hx.
    + rewrite Forall_fmap. eapply Forall_impl; [exact Ha|].
      intros x Hx. simpl. destruct (decide (e_id x = j)); exact Hx.
Qed.

Lemma run_ops_keeps_entry (e : entry_row) (ops : list op) (s : SessionTracer) :
  (exists before e' after,
      bayesdb_session_entries (db s) = before ++ e' :: after
      /\ (e' = e \/ e' = set_completed e)
      /\ Forall (fun x => e_id x < e_id e) before
      /\ Forall (fun x => e_id e < e_id x) after) ->
  (exists before e' after,
      bayesdb_session_entries (db (run_ops float_repr ops s)) = before ++ e' :: after
      /\ (e' = e \/ e' = set_completed e)
      /\ Forall (fun x => e_id x < e_id e) before
      /\ Forall (fun x => e_id e < e_id x) after).
Proof.
  revert s. induction ops as [|o ops IH]; intros s Hs; [exact Hs|].
  simpl. apply IH, run_op_keeps_entry, Hs.
Qed.

Lemma update_untouched (i : Z) (l : list entry_row) :
  Forall (fun x => e_id x <> i) l ->
  map (fun x => if decide (e_id x = i) then set_completed x else x) l = l.
Proof.
  induction 1 as [|x l Hx _ IH]; [reflexivity|].
  simpl. rewrite IH, decide_False by exact Hx. reflexivity.
Qed.

(** C2, as the code has it.  Let a trace call add the entry [e] and
    return the callback [finish], and let the engine then start and
    complete any queries ([ops]), without a call of
    [clear_all_sessions], before it calls [finish].  At that point the
    table holds one row with the id of [e], which is [e] itself or [e]
    completed; the call turns that row into [e] with [completed = 1] and
    leaves every other entry row, every session row, [sqlite_sequence],
    the last insert rowid, the current session id, the printed lines
    and the hook registrations as they were. *)
Theorem completion_callback_frame (type q : string) (b : pyobject) (t : Q)
    (self self1 : SessionTracer) (finish : SessionTracer -> SessionTracer)
    (ops : list op) :
  _trace float_repr type q b t self = inr (self1, finish) ->
  let self2 := run_ops float_repr ops self1 in
  exists e,
    bayesdb_session_entries (db self1) = bayesdb_session_entries (db self) ++ [e]
    /\ e_completed e = 0
    /\ e_completed (set_completed e) = 1
    /\ exists before e' after,
        bayesdb_session_entries (db self2) = before ++ e' :: after
        /\ (e' = e \/ e' = set_completed e)
        /\ Forall (fun x => e_id x <> e_id e) (before ++ after)
        /\ bayesdb_session_entries (db (finish self2))
           = before ++ set_completed e :: after
        /\ bayesdb_session (db (finish self2)) = bayesdb_session (db self2)
        /\ sqlite_sequence (db (finish self2)) = sqlite_sequence (db self2)
        /\ last_insert_rowid (db (finish self2)) = last_insert_rowid (db self2)
        /\ session_id (finish self2) = session_id self2
        /\ out (finish self2) = out self2
        /\ bql_traced (bdb (finish self2)) = bql_traced (bdb self2)
        /\ sql_traced (bdb (finish self2)) = sql_traced (bdb self2).
Proof.
  intros Htrace self2. apply _trace_returns in Htrace as (v & _ & Hself1 & ->).
  set (e := traced_entry float_repr type q v t self).
  exists e.
  split; [rewrite Hself1; apply _trace_entries|].
  split; [reflexivity|]. split; [reflexivity|].
  destruct (run_ops_keeps_entry e ops self1) as (before & e' & after & Hs & He' & Hb & Ha).
  { exists (bayesdb_session_entries (db self)), e, [].
    split; [rewrite Hself1; apply _trace_entries|]. split; [left; reflexivity|].
    split; [apply traced_entry_fresh | constructor]. }
  fold self2 in Hs.
  exists before, e', after.
  assert (Forall (fun x => e_id x <> e_id e) before) as Hb'
    by (eapply Forall_impl; [exact Hb|]; simpl; intros; lia).
  assert (Forall (fun x => e_id x <> e_id e) after) as Ha'
    by (eapply Forall_impl; [exact Ha|]; simpl; intros; lia).
  split; [exact Hs|]. split; [exact He'|].
  split; [apply Forall_app; split; assumption|].
  split; [|repeat split].
  change (bayesdb_session_entries (db (_finish (e_id e) self2)))
    with (map (fun x => if decide (e_id x = e_id e) then set_completed x else x)
              (bayesdb_session_entries (db self2))).
  rewrite Hs, map_app. simpl.
  rewrite !update_untouched by assumption.
  rewrite decide_True by (destruct He' as [-> | ->]; reflexivity).
  destruct He' as [-> | ->]; reflexivity.
Qed.

(* ===================================================================== *)
(** ** Dumping a session: the range check *)
(* ===================================================================== *)

(** C3. [dump_session_as_json sid] raises exactly when [sid < 1] or
    [sid] is greater than the current session id, and what it raises
    then is the ValueError that names the id; so it raises at 0 and at
    the current id plus one, and returns a string at every id in
    range. *)
Theorem dump_session_raises_iff_out_of_range (sid : Z) (self : SessionTracer) :
  ((exists e, dump_session_as_json float_repr sid self = inl e)
     <-> (sid < 1 \/ current_session_id self < sid))
  /\ ((sid < 1 \/ current_session_id self < sid) ->
        dump_session_as_json float_repr sid self
        = inl (ValueError ("No such session (" +:+ pretty sid +:+ ")")))
  /\ (exists msg, dump_session_as_json float_repr 0 self = inl (ValueError msg))
  /\ (exists msg, dump_session_as_json float_repr (current_session_id self + 1) self
                  = inl (ValueError msg))
  /\ (1 <= sid <= current_session_id self ->
        exists json, dump_session_as_json float_repr sid self = inr json).
Proof.
  unfold dump_session_as_json, current_session_id.
  repeat split.
  - intros [e He].
    destruct ((session_id self <? sid) || (sid <? 1))%Z eqn:Hb; [|discriminate].
    apply orb_true_iff in Hb as [Hb|Hb]; apply Z.ltb_lt in Hb; lia.
  - intros Hr. range_guard true. eauto.
  - intros Hr. range_guard true. reflexivity.
  - rewrite orb_true_r. eauto.
  - assert ((session_id self <? session_id self + 1)%Z = true) as ->
      by (apply Z.ltb_lt; lia).
    eauto.
  - intros [H1 H2]. range_guard false. eauto.
Qed.


(* ===================================================================== *)
(** ** Dumping a session: the rows *)
(* ===================================================================== *)

#[local] Instance time_desc_trans : Transitive time_desc.
Proof. intros a b c Hab Hbc. unfold time_desc in *. eapply Qle_trans; eassumption. Qed.

#[local] Instance time_desc_total : Total time_desc.
Proof.
  intros a b. unfold time_desc.
  destruct (Qlt_le_dec (e_time a) (e_time b)) as [H|H].
  - right. apply Qlt_le_weak, H.
  - left. exact H.
Qed.

Lemma select_entries_sorted (sid : Z) (d : database) :
  StronglySorted time_desc (select_entries sid d).
Proof. apply StronglySorted_merge_sort; apply _. Qed.

Lemma select_entries_perm (sid : Z) (d : database) :
  select_entries sid d
  ≡ₚ filter (fun e => e_session_id e = sid) (bayesdb_session_entries d).
Proof. apply merge_sort_Permutation. Qed.

Lemma select_entries_elem (sid : Z) (d : database) (e : entry_row) :
  e ∈ select_entries sid d <-> e ∈ bayesdb_session_entries d /\ e_session_id e = sid.
Proof. rewrite select_entries_perm, list_elem_of_filter. tauto. Qed.

Lemma dump_in_range (sid : Z) (self : SessionTracer) :
  1 <= sid <= session_id self ->
  dump_session_as_json float_repr sid self
  = inr (dumps float_repr (PList (dump_session_rows sid self))).
Proof.
  intros [H1 H2]. unfold dump_session_as_json. range_guard false. reflexivity.
Qed.

(** C4. For a session id in range the dump is the JSON text of the rows
    of that session, each row once, in an order in which every row has a
    timestamp at least as large as every row after it. *)
Theorem dump_session_newest_first (sid : Z) (self : SessionTracer) :
  1 <= sid <= current_session_id self ->
  exists rows,
    dump_session_as_json float_repr sid self
    = inr (dumps float_repr (PList (map entry_tuple rows)))
    /\ StronglySorted (fun a b => Qle (e_time b) (e_time a)) rows
    /\ rows ≡ₚ filter (fun e => e_session_id e = sid)
                      (bayesdb_session_entries (db self)).
Proof.
  intros Hr. exists (select_entries sid (db self)).
  split; [apply dump_in_range, Hr|].
  split; [apply select_entries_sorted | apply select_entries_perm].
Qed.

(** C5, as the code has it.  For a session id in range every element of
    the dumped list is the tuple of the six column values of one entry
    of that session, in the order id, session_id, time, type, data,
    completed, and [json.dumps] writes it as a JSON array of these six
    values; no column name appears in it. *)
Theorem dump_session_elements_are_column_arrays (sid : Z) (self : SessionTracer) :
  1 <= sid <= current_session_id self ->
  dump_session_as_json float_repr sid self
  = inr (dumps float_repr (PList (dump_session_rows sid self)))
  /\ Forall (fun v => exists e,
                 e ∈ bayesdb_session_entries (db self) /\ e_session_id e = sid
                 /\ v = PTuple [PInt (e_id e); PInt (e_session_id e); PFloat (e_time e);
                                PStr (e_type e); PStr (e_data e); PInt (e_completed e)]
                 /\ dumps float_repr v
                    = "[" +:+ (pretty (e_id e) +:+ ", " +:+ pretty (e_session_id e)
                               +:+ ", " +:+ float_repr (e_time e)
                               +:+ ", " +:+ encode_basestring_ascii (e_type e)
                               +:+ ", " +:+ encode_basestring_ascii (e_data e)
                               +:+ ", " +:+ pretty (e_completed e)) +:+ "]")
            (dump_session_rows sid self).
Proof.
  intros Hr. split; [apply dump_in_range, Hr|].
  unfold dump_session_rows. rewrite Forall_fmap. apply Forall_forall.
  intros e He. apply select_entries_elem in He as [He Hsid].
  exists e. split; [exact He|]. split; [exact Hsid|]. split; reflexivity.
Qed.

Lemma select_entries_none (sid : Z) (d : database) :
  Forall (fun e => e_session_id e <> sid) (bayesdb_session_entries d) ->
  select_entries sid d = [].
Proof.
  intros H. destruct (select_entries sid d) as [|e l] eqn:Heq; [reflexivity|].
  assert (e ∈ select_entries sid d) as He by (rewrite Heq; left).
  apply select_entries_elem in He as [He Hsid].
  rewrite Forall_forall in H. destruct (H e He Hsid).
Qed.


(* ===================================================================== *)
(** ** Construction and the check of the previous session *)
(* ===================================================================== *)

Lemma _check_unfinished_entries_spec (self : SessionTracer) :
  let n := uncompleted_in (session_id self - 1) (bayesdb_session_entries (db self)) in
  snd (_check_unfinished_entries self) = n
  /\ bdb (fst (_check_unfinished_entries self)) = bdb self
  /\ session_id (fst (_check_unfinished_entries self)) = session_id self
  /\ out (fst (_check_unfinished_entries self))
     = out self ++ (if (0 <? n)%Z then [WARNING] else []).
Proof.
  unfold _check_unfinished_entries, count_uncompleted, uncompleted_in. simpl.
  destruct (0 <? _)%Z; simpl; repeat split.
  symmetry. apply app_nil_r.
Qed.

Lemma __init___state (bdb0 : BayesDB) :
  db (__init__ bdb0) = insert_session (sqlite3 bdb0)
  /\ session_id (__init__ bdb0) = last_insert_rowid (insert_session (sqlite3 bdb0))
  /\ bql_traced (bdb (__init__ bdb0)) = true
  /\ sql_traced (bdb (__init__ bdb0)) = true.
Proof.
  unfold __init__.
  destruct (_check_unfinished_entries_spec
              (_start_new_session (start_saving_sessions
                 {| out := []; bdb := bdb0; session_id := 0 |})))
    as (_ & Hb & Hs & _).
  unfold db. rewrite Hb, Hs. repeat split.
Qed.

(** C7. Construction creates the session [current_id], one more row in
    the session table.  With [n] the number of entries of session
    [current_id - 1] whose [completed] is 0, the tracer has printed the
    one warning line when [0 < n] and nothing when [n = 0]; the line is
    a fixed text that contains the words [uncompleted entries] and does
    not depend on the entries.  The check is a total function of the
    tracer: it returns [n], and changes neither the store nor the
    session id. *)
Theorem init_warns_iff_previous_session_uncompleted (bdb0 : BayesDB) :
  let self := __init__ bdb0 in
  let current_id := current_session_id self in
  let n := uncompleted_in (current_id - 1) (bayesdb_session_entries (sqlite3 bdb0)) in
  bayesdb_session (db self) = bayesdb_session (sqlite3 bdb0) ++ [ {| s_id := current_id |} ]
  /\ bayesdb_session_entries (db self) = bayesdb_session_entries (sqlite3 bdb0)
  /\ ((0 < n /\ out self = [WARNING]) \/ (n = 0 /\ out self = []))
  /\ (exists before after, WARNING = before +:+ "uncompleted entries" +:+ after)
  /\ (forall s : SessionTracer,
        snd (_check_unfinished_entries s)
        = uncompleted_in (session_id s - 1) (bayesdb_session_entries (db s))
        /\ bdb (fst (_check_unfinished_entries s)) = bdb s
        /\ session_id (fst (_check_unfinished_entries s)) = session_id s).
Proof.
  intros self current_id n.
  destruct (__init___state bdb0) as (Hdb & Hsid & _).
  fold self in Hdb, Hsid.
  set (s1 := _start_new_session (start_saving_sessions
                {| out := []; bdb := bdb0; session_id := 0 |})).
  destruct (_check_unfinished_entries_spec s1) as (_ & _ & _ & Hout).
  assert (n = uncompleted_in (session_id s1 - 1) (bayesdb_session_entries (db s1)))
    as Hn by (unfold n, current_id, current_session_id; rewrite Hsid; reflexivity).
  rewrite <- Hn in Hout. change (out self = (if (0 <? n)%Z then [WARNING] else [])) in Hout.
  unfold current_id, current_session_id. rewrite Hdb, Hsid.
  split; [reflexivity|]. split; [reflexivity|].
  split; [|split].
  - rewrite Hout.
    assert (0 <= n) by (rewrite Hn; unfold uncompleted_in; lia).
    destruct (0 <? n)%Z eqn:Hlt.
    + left. apply Z.ltb_lt in Hlt. split; [exact Hlt | reflexivity].
    + right. apply Z.ltb_ge in Hlt. split; [lia | reflexivity].
  - exists "WARNING: Previous session contains ",
      ". This may be due to a bad termination or crash of the previous session. Consider uploading the session with send_session_data().".
    reflexivity.
  - intros s. destruct (_check_unfinished_entries_spec s) as (H1 & H2 & H3 & _).
    repeat split; assumption.
Qed.

(* ===================================================================== *)
(** ** Clearing the log *)
(* ===================================================================== *)

Lemma clear_all_sessions_db (self : SessionTracer) :
  db (clear_all_sessions self)
  = {| bayesdb_session := [ {| s_id := 1 |} ];
       bayesdb_session_entries := [];
       sqlite_sequence :=
         <["bayesdb_session" := 1]>
           (delete "bayesdb_session_entries"
                   (delete "bayesdb_session" (sqlite_sequence (db self))));
       last_insert_rowid := 1 |}
  /\ session_id (clear_all_sessions self) = 1.
Proof.
  unfold clear_all_sessions, _start_new_session, insert_session, db. simpl.
  rewrite lookup_delete_ne by discriminate.
  rewrite lookup_delete_eq. split; reflexivity.
Qed.

(** C6. Whatever the log held, after [clear_all_sessions] the entry
    table is empty, the session table holds exactly one row, the row of
    the current session, and its id is 1, the id an empty table with no
    remembered sequence value assigns; that session has no entries; the
    sequence row of the entry table is gone and the row of the session
    table holds 1, so the next entry gets id 1 and the next session id
    2; the sequence rows of other tables are as they were. *)
Theorem clear_all_sessions_leaves_one_fresh_session (self : SessionTracer) :
  let self' := clear_all_sessions self in
  list_sessions self' = [ {| s_id := current_session_id self' |} ]
  /\ current_session_id self' = 1
  /\ new_rowid [] None = 1
  /\ bayesdb_session_entries (db self') = []
  /\ select_entries (current_session_id self') (db self') = []
  /\ sqlite_sequence (db self') !! "bayesdb_session_entries" = None
  /\ sqlite_sequence (db self') !! "bayesdb_session" = Some 1
  /\ (forall type q b t, e_id (traced_entry float_repr type q b t self') = 1)
  /\ current_session_id (_start_new_session self') = 2
  /\ (forall name, name <> "bayesdb_session" -> name <> "bayesdb_session_entries" ->
        sqlite_sequence (db self') !! name = sqlite_sequence (db self) !! name).
Proof.
  intros self'. destruct (clear_all_sessions_db self) as [Hdb Hsid].
  fold self' in Hdb, Hsid.
  unfold list_sessions, select_sessions, current_session_id, traced_entry,
    _start_new_session, insert_session.
  cbn [session_id last_insert_rowid].
  rewrite Hdb, Hsid. cbn [bayesdb_session bayesdb_session_entries sqlite_sequence].
  assert ((<["bayesdb_session" := 1]>
             (delete "bayesdb_session_entries"
                (delete "bayesdb_session" (sqlite_sequence (db self))))
           : gmap string Z) !! "bayesdb_session_entries" = None) as Hentries.
  { rewrite lookup_insert_ne by discriminate. apply lookup_delete_eq. }
  repeat split; try reflexivity.
  - exact Hentries.
  - apply lookup_insert_eq.
  - intros type q b t. cbn [e_id]. rewrite Hentries. reflexivity.
  - rewrite lookup_insert_eq. reflexivity.
  - intros name H1 H2.
    rewrite lookup_insert_ne by congruence.
    rewrite !lookup_delete_ne by congruence. reflexivity.
Qed.


(* ===================================================================== *)
(** ** Consistent stores *)
(* ===================================================================== *)

Lemma consistent_empty : consistent empty_database.
Proof.
  unfold consistent, empty_database. cbn [sqlite_sequence bayesdb_session_entries].
  rewrite lookup_empty. split; [cbn; lia | constructor].
Qed.

Lemma insert_session_consistent (d : database) :
  consistent d ->
  consistent (insert_session d)
  /\ sqlite_sequence (insert_session d) !! "bayesdb_session"
     = Some (last_insert_rowid (insert_session d))
  /\ 1 <= last_insert_rowid (insert_session d)
  /\ Forall (fun e => e_session_id e < last_insert_rowid (insert_session d))
            (bayesdb_session_entries (insert_session d)).
Proof.
  intros [Hseq Hent].
  pose proof (new_rowid_above_sequence (map s_id (bayesdb_session d))
                (sqlite_sequence d !! "bayesdb_session")) as Hnew.
  unfold consistent, insert_session. cbn [sqlite_sequence bayesdb_session_entries last_insert_rowid].
  rewrite lookup_insert_eq.
  set (v := new_rowid _ _) in *. change (default 0 (Some v)) with v.
  split; [split|split; [|split]].
  - lia.
  - eapply Forall_impl; [exact Hent|]. cbn beta. intros. lia.
  - reflexivity.
  - lia.
  - eapply Forall_impl; [exact Hent|]. cbn beta. intros. lia.
Qed.

Lemma __init___consistent (bdb0 : BayesDB) :
  consistent (sqlite3 bdb0) -> tracer_consistent (__init__ bdb0).
Proof.
  intros Hc. destruct (__init___state bdb0) as (Hdb & Hsid & _).
  destruct (insert_session_consistent _ Hc) as (Hc' & Hseq & _ & _).
  unfold tracer_consistent. rewrite Hdb, Hsid, Hseq. split; [exact Hc' | simpl; lia].
Qed.

Lemma run_op_consistent (s : SessionTracer) (o : op) :
  tracer_consistent s -> tracer_consistent (run_op float_repr s o).
Proof.
  intros [[Hseq Hent] Hsid]. destruct o as [type query bindings t | j].
  - rewrite run_op_trace.
    destruct (encode bindings) as [v|]; [|split; [split|]; assumption].
    unfold tracer_consistent, consistent.
    rewrite _trace_entries.
    change (sqlite_sequence (db (traced float_repr type query v t s)))
      with (<["bayesdb_session_entries" :=
               e_id (traced_entry float_repr type query v t s)]>
              (sqlite_sequence (db s))).
    rewrite lookup_insert_ne by discriminate.
    repeat split; try assumption.
    apply Forall_app. split; [exact Hent|]. constructor; [exact Hsid | constructor].
  - unfold tracer_consistent, consistent. cbn [run_op].
    change (sqlite_sequence (db (_finish j s))) with (sqlite_sequence (db s)).
    change (bayesdb_session_entries (db (_finish j s)))
      with (map (fun x => if decide (e_id x = j) then set_completed x else x)
                (bayesdb_session_entries (db s))).
    repeat split; try assumption.
    rewrite Forall_fmap. eapply Forall_impl; [exact Hent|].
    intros x Hx. cbn. destruct (decide (e_id x = j)); exact Hx.
Qed.

Lemma clear_all_sessions_consistent (s : SessionTracer) :
  tracer_consistent (clear_all_sessions s).
Proof.
  destruct (clear_all_sessions_db s) as [Hdb Hsid].
  unfold tracer_consistent, consistent. rewrite Hdb, Hsid.
  cbn [sqlite_sequence bayesdb_session_entries].
  rewrite lookup_insert_eq. cbn. repeat split; try lia. constructor.
Qed.

(* ===================================================================== *)
(** ** Dumping a session without entries *)
(* ===================================================================== *)

Lemma dump_no_entries (sid : Z) (self : SessionTracer) :
  1 <= sid <= session_id self ->
  Forall (fun e => e_session_id e <> sid) (bayesdb_session_entries (db self)) ->
  dump_session_as_json float_repr sid self = inr "[]".
Proof.
  intros Hr Hnone. rewrite dump_in_range by exact Hr.
  unfold dump_session_rows. rewrite select_entries_none by exact Hnone.
  reflexivity.
Qed.

(** C10. A session id in range with no entry in the table gives the
    dump [[]], not an exception.  This is the case for the current
    session right after [clear_all_sessions], whatever the log held,
    and right after construction over a consistent store. *)
Theorem dump_of_session_without_entries (sid : Z) (self : SessionTracer)
    (bdb0 : BayesDB) :
  (1 <= sid <= current_session_id self ->
   Forall (fun e => e_session_id e <> sid) (bayesdb_session_entries (db self)) ->
   dump_session_as_json float_repr sid self = inr "[]")
  /\ dump_current_session_as_json float_repr (clear_all_sessions self) = inr "[]"
  /\ (consistent (sqlite3 bdb0) ->
      dump_current_session_as_json float_repr (__init__ bdb0) = inr "[]").
Proof.
  split; [apply dump_no_entries|]. split.
  - destruct (clear_all_sessions_db self) as [Hdb Hsid].
    unfold dump_current_session_as_json. apply dump_no_entries.
    + rewrite Hsid. lia.
    + rewrite Hdb. constructor.
  - intros Hc. destruct (__init___state bdb0) as (Hdb & Hsid & _).
    destruct (insert_session_consistent _ Hc) as (_ & _ & Hpos & Hlt).
    unfold dump_current_session_as_json. apply dump_no_entries.
    + rewrite Hsid. lia.
    + rewrite Hdb, Hsid. eapply Forall_impl; [exact Hlt|]. cbn beta. intros. lia.
Qed.


(* ===================================================================== *)
(** ** Uploading the sessions *)
(* ===================================================================== *)

(** Over ids in range the loop never stops on a ValueError; it issues
    the POSTs of the ids in their order, up to and including the first
    one that raises, and all of them when none raises. *)
Lemma send_loop_spec (ids : list Z) (n : nat) (self : SessionTracer) :
  Forall (fun id => 1 <= id <= session_id self) ids ->
  exists self' posts r,
    send_loop float_repr http_post ids n self = (self', posts, r)
    /\ posts `prefix_of` map (fun id => session_post float_repr id self) ids
    /\ (r = None \/ r = Some RequestException)
    /\ (r = None -> posts = map (fun id => session_post float_repr id self) ids)
    /\ ((forall k form, is_Some (http_post k probcomp_url form)) -> r = None)
    /\ bdb self' = bdb self /\ session_id self' = session_id self.
Proof.
  revert n self. induction ids as [|id rest IH]; intros n self Hr.
  - exists self, [], None. cbn [send_loop map].
    split; [reflexivity|]. split; [apply prefix_nil|]. repeat split; auto.
  - apply Forall_cons in Hr as [Hid Hrest].
    cbn [send_loop].
    set (self1 := _print _ self).
    rewrite (dump_in_range id self1) by exact Hid.
    set (json_string := dumps float_repr (PList (dump_session_rows id self1))).
    set (self2 := _print json_string self1).
    destruct (http_post n probcomp_url [("session_json", json_string)]) as [text|] eqn:Hpost.
    + destruct (IH (S n) (_print ("Response: " +:+ text) self2) Hrest)
        as (self' & posts & r & Hloop & Hpre & Hr' & Hall & Hnet & Hbdb & Hsid).
      rewrite Hloop.
      exists self', ((probcomp_url, [("session_json", json_string)]) :: posts), r.
      split; [reflexivity|].
      split; [apply prefix_cons, Hpre|].
      split; [exact Hr'|].
      split; [intros Hnone; cbn [map]; f_equal; apply Hall, Hnone|].
      split; [exact Hnet|]. split; assumption.
    + exists self2, [(probcomp_url, [("session_json", json_string)])], (Some RequestException).
      split; [reflexivity|].
      split; [apply prefix_cons, prefix_nil|].
      split; [right; reflexivity|].
      split; [discriminate|].
      split; [|split; reflexivity].
      intros Hnet. specialize (Hnet n [("session_json", json_string)]).
      rewrite Hpost in Hnet. destruct Hnet as [x Hx]. discriminate.
Qed.

(** C8. [send_session_data] walks the ids [1, 2, ..., current session
    id] in this order.  Each of them is in range, so its dump is a JSON
    string; the POSTs issued are, in order, one per id, to the fixed
    endpoint with the dump as the form field [session_json], up to the
    first POST that raises; when every POST gets a response the loop
    ends normally and the POSTs are those of all the ids.  The store and
    the session id are untouched. *)
Theorem send_session_data_posts_each_session (self : SessionTracer) :
  let ids := seqZ 1 (current_session_id self) in
  (forall (i : nat) (id : Z),
      ids !! i = Some id
      <-> id = 1 + Z.of_nat i /\ Z.of_nat i < current_session_id self)
  /\ exists jsons self' posts r,
      Forall2 (fun id json => dump_session_as_json float_repr id self = inr json)
              ids jsons
      /\ send_session_data float_repr http_post self = (self', posts, r)
      /\ posts `prefix_of`
           map (fun json => (probcomp_url, [("session_json", json)])) jsons
      /\ (r = None \/ r = Some RequestException)
      /\ ((forall n form, is_Some (http_post n probcomp_url form)) ->
          r = None
          /\ posts = map (fun json => (probcomp_url, [("session_json", json)])) jsons)
      /\ bdb self' = bdb self /\ session_id self' = session_id self.
Proof.
  intros ids. split; [intros i id; apply lookup_seqZ|].
  assert (Forall (fun id => 1 <= id <= session_id self) ids) as Hr.
  { apply Forall_forall. intros id Hid.
    apply list_elem_of_lookup in Hid as [i Hi].
    apply lookup_seqZ in Hi. unfold current_session_id in Hi. lia. }
  destruct (send_loop_spec ids 0 self Hr)
    as (self' & posts & r & Hloop & Hpre & Hr' & Hall & Hnet & Hbdb & Hsid).
  exists (map (fun id => dumps float_repr (PList (dump_session_rows id self))) ids),
         self', posts, r.
  assert (map (fun json => (probcomp_url, [("session_json", json)]))
              (map (fun id => dumps float_repr (PList (dump_session_rows id self))) ids)
          = map (fun id => session_post float_repr id self) ids) as Heq
    by (rewrite map_map; reflexivity).
  rewrite Heq.
  split; [|split; [exact Hloop|split; [exact Hpre|split; [exact Hr'|split]]]].
  - apply Forall2_fmap_r, Forall_Forall2_diag.
    eapply Forall_impl; [exact Hr|]. intros id Hid. apply dump_in_range, Hid.
  - intros Hok. split; [apply Hnet, Hok | apply Hall, Hnet, Hok].
  - split; assumption.
Qed.

End Properties.

(* ===================================================================== *)
(** ** The sample runs *)
(* ===================================================================== *)

Lemma first_run_session : current_session_id first_run = 1.
Proof. vm_compute. reflexivity. Qed.

Lemma second_run_session : current_session_id second_run = 2.
Proof. vm_compute. reflexivity. Qed.

Lemma first_run_rows :
  dump_session_rows 1 first_run
  = [PTuple [PInt 2; PInt 1; PFloat (3 # 2); PStr "sql"; PStr "SELECT ?[1]"; PInt 1];
     PTuple [PInt 1; PInt 1; PFloat (1 # 2); PStr "bql"; PStr "SELECT 1;[]"; PInt 0]].
Proof. vm_compute. reflexivity. Qed.

(** With an empty tuple of bindings, which is what the engine passes for
    a query without parameters, the data ends in [[]]. *)
Lemma first_run_data :
  map e_data (bayesdb_session_entries (db first_run)) = ["SELECT 1;[]"; "SELECT ?[1]"].
Proof. vm_compute. reflexivity. Qed.

Lemma second_run_warns : out second_run = [WARNING].
Proof. vm_compute. reflexivity. Qed.

Lemma first_run_in_range : 1 <= 1 <= current_session_id first_run.
Proof. rewrite first_run_session. lia. Qed.

Lemma before_clear_returns : before_clear = inr (traced_once, finish_once).
Proof. vm_compute. reflexivity. Qed.

(** C1, as the spec has it, fails for bindings that hold a blob:
    [json.dumps] has no encoding for them, the callback raises
    TypeError and returns no tracer with a new row. *)
Lemma trace_of_blob_bindings_raises :
  json_dumps sample_repr (OTuple [OBuffer "blob"]) = None
  /\ _bql_trace sample_repr "SELECT ?" (OTuple [OBuffer "blob"]) (1 # 2)
       (__init__ fresh_bdb)
     = inl TypeError
  /\ ~ (exists self1 finish e,
          _bql_trace sample_repr "SELECT ?" (OTuple [OBuffer "blob"]) (1 # 2)
            (__init__ fresh_bdb)
          = inr (self1, finish)
          /\ bayesdb_session_entries (db self1)
             = bayesdb_session_entries (db (__init__ fresh_bdb)) ++ [e]).
Proof.
  split; [reflexivity|]. split; [reflexivity|].
  intros (self1 & finish & e & H & _). discriminate H.
Qed.

Lemma trace_inserts_one_pending_entry_witness :
  json_dumps sample_repr (OTuple [OInt 1]) = Some "[1]"
  /\ exists self1 finish e,
      _sql_trace sample_repr "SELECT ?" (OTuple [OInt 1]) (3 # 2) (__init__ fresh_bdb)
      = inr (self1, finish)
      /\ bayesdb_session_entries (db self1)
         = bayesdb_session_entries (db (__init__ fresh_bdb)) ++ [e]
      /\ e_completed e = 0
      /\ e_data e = "SELECT ?[1]".
Proof.
  assert (json_dumps sample_repr (OTuple [OInt 1]) = Some "[1]") as H by reflexivity.
  split; [exact H|].
  destruct (proj2 (proj1 (trace_inserts_one_pending_entry sample_repr "SELECT ?"
                            (OTuple [OInt 1]) (3 # 2) (__init__ fresh_bdb)) "[1]" H))
    as (self1 & finish & e & Htrace & Hentries & Hcompleted & Hdata & _).
  exists self1, finish, e. repeat split; assumption.
Defined.

(** C2, as the spec has it, fails once the log has been cleared: the
    callback of the query traced before the clear, called after the
    first query traced after it, leaves no row of its own query (the
    clear deleted it) and changes the row of the other query from
    [completed = 0] to [completed = 1]. *)
Lemma stale_callback_flips_another_entry :
  exists self1 finish1 self3 finish3,
    before_clear = inr (self1, finish1)
    /\ after_clear self1 = inr (self3, finish3)
    /\ map (fun e => (e_id e, e_data e, e_completed e))
           (bayesdb_session_entries (db self1))
       = [(1, "SELECT 1;[]", 0)]
    /\ map (fun e => (e_id e, e_data e, e_completed e))
           (bayesdb_session_entries (db self3))
       = [(1, "SELECT 2;[]", 0)]
    /\ map (fun e => (e_id e, e_data e, e_completed e))
           (bayesdb_session_entries (db (finish1 self3)))
       = [(1, "SELECT 2;[]", 1)].
Proof.
  exists traced_once, finish_once,
    (traced sample_repr "bql" "SELECT 2;" (PTuple []) (3 # 2)
            (clear_all_sessions traced_once)),
    (fun self' => _finish 1 self').
  repeat split; vm_compute; reflexivity.
Qed.

Lemma completion_callback_frame_witness :
  before_clear = inr (traced_once, finish_once)
  /\ exists e,
      bayesdb_session_entries (db traced_once)
      = bayesdb_session_entries (db (__init__ fresh_bdb)) ++ [e]
      /\ e_completed e = 0
      /\ exists before after,
          bayesdb_session_entries
            (db (finish_once
                   (run_ops sample_repr
                      [OpTrace "sql" "SELECT ?" (OTuple [OInt 1]) (3 # 2); OpFinish 2]
                      traced_once)))
          = before ++ set_completed e :: after.
Proof.
  split; [exact before_clear_returns|].
  destruct (completion_callback_frame sample_repr "bql" "SELECT 1;" (OTuple []) (1 # 2)
              (__init__ fresh_bdb) traced_once finish_once
              [OpTrace "sql" "SELECT ?" (OTuple [OInt 1]) (3 # 2); OpFinish 2]
              before_clear_returns)
    as (e & Hentries & Hpending & _ & before & e' & after & _ & _ & _ & Hafter & _).
  exists e. split; [exact Hentries|]. split; [exact Hpending|].
  exists before, after. exact Hafter.
Defined.

Lemma completion_callback_idempotent_witness :
  before_clear = inr (traced_once, finish_once)
  /\ finish_once (finish_once traced_once) = finish_once traced_once
  /\ Nat.iter 3 finish_once traced_once = finish_once traced_once.
Proof.
  split; [exact before_clear_returns|].
  exact (completion_callback_idempotent sample_repr "bql" "SELECT 1;" (OTuple []) (1 # 2)
           (__init__ fresh_bdb) traced_once finish_once traced_once 2
           before_clear_returns).
Defined.

Lemma dump_session_raises_iff_out_of_range_witness :
  (3 < 1 \/ current_session_id first_run < 3)
  /\ dump_session_as_json sample_repr 3 first_run
     = inl (ValueError "No such session (3)").
Proof.
  assert (3 < 1 \/ current_session_id first_run < 3) as H
    by (right; rewrite first_run_session; lia).
  split; [exact H|].
  exact (proj1 (proj2 (dump_session_raises_iff_out_of_range sample_repr 3 first_run)) H).
Defined.

Lemma dump_session_newest_first_witness :
  1 <= 1 <= current_session_id first_run
  /\ exists rows,
      dump_session_as_json sample_repr 1 first_run
      = inr (dumps sample_repr (PList (map entry_tuple rows)))
      /\ StronglySorted (fun a b => Qle (e_time b) (e_time a)) rows
      /\ rows ≡ₚ filter (fun e => e_session_id e = 1)
                        (bayesdb_session_entries (db first_run)).
Proof.
  split; [exact first_run_in_range|].
  exact (dump_session_newest_first sample_repr 1 first_run first_run_in_range).
Defined.

(** C5, as the spec has it, fails on the first sample run: the dump of
    session 1 is in range, its elements are tuples, not dictionaries
    keyed by column names, and the JSON text opens with two square
    brackets. *)
Lemma dump_session_element_is_not_an_object :
  1 <= 1 <= current_session_id first_run
  /\ ~ Forall entry_object (dump_session_rows 1 first_run)
  /\ exists rest,
      dump_session_as_json sample_repr 1 first_run
      = inr (String "["%char (String "["%char rest)).
Proof.
  split; [exact first_run_in_range|]. split.
  - rewrite first_run_rows. intros H.
    apply Forall_cons in H as [[items [Heq _]] _]. discriminate Heq.
  - eexists. vm_compute. reflexivity.
Qed.

Lemma dump_session_elements_are_column_arrays_witness :
  1 <= 1 <= current_session_id first_run
  /\ dump_session_as_json sample_repr 1 first_run
     = inr (dumps sample_repr (PList (dump_session_rows 1 first_run))).
Proof.
  split; [exact first_run_in_range|].
  exact (proj1 (dump_session_elements_are_column_arrays sample_repr 1 first_run
                  first_run_in_range)).
Defined.

Lemma clear_all_sessions_leaves_one_fresh_session_witness :
  "other_table" <> "bayesdb_session" /\ "other_table" <> "bayesdb_session_entries"
  /\ sqlite_sequence (db (clear_all_sessions first_run)) !! "other_table"
     = sqlite_sequence (db first_run) !! "other_table".
Proof.
  assert ("other_table" <> "bayesdb_session") as H1 by discriminate.
  assert ("other_table" <> "bayesdb_session_entries") as H2 by discriminate.
  split; [exact H1|]. split; [exact H2|].
  destruct (clear_all_sessions_leaves_one_fresh_session sample_repr first_run)
    as (_ & _ & _ & _ & _ & _ & _ & _ & _ & Hother).
  exact (Hother "other_table" H1 H2).
Defined.

Lemma sample_post_answers (n : nat) (form : list (string * string)) :
  is_Some (sample_post n probcomp_url form).
Proof. exists "OK". reflexivity. Qed.

Lemma send_session_data_posts_each_session_witness :
  (forall n form, is_Some (sample_post n probcomp_url form))
  /\ exists jsons self' posts,
      Forall2 (fun id json => dump_session_as_json sample_repr id second_run = inr json)
              (seqZ 1 (current_session_id second_run)) jsons
      /\ send_session_data sample_repr sample_post second_run = (self', posts, None)
      /\ posts = map (fun json => (probcomp_url, [("session_json", json)])) jsons.
Proof.
  split; [exact sample_post_answers|].
  destruct (send_session_data_posts_each_session sample_repr sample_post second_run)
    as (_ & jsons & self' & posts & r & Hdumps & Hsend & _ & _ & Hok & _).
  destruct (Hok sample_post_answers) as [-> Hposts].
  exists jsons, self', posts. split; [exact Hdumps|]. split; [exact Hsend | exact Hposts].
Defined.

Lemma second_run_no_entries :
  Forall (fun e => e_session_id e <> 2) (bayesdb_session_entries (db second_run)).
Proof. apply (bool_decide_eq_true_1 _). vm_compute. reflexivity. Qed.

Lemma first_run_consistent : consistent (sqlite3 (bdb first_run)).
Proof.
  unfold consistent. split; apply (bool_decide_eq_true_1 _); vm_compute; reflexivity.
Qed.

Lemma dump_of_session_without_entries_witness :
  (1 <= 2 <= current_session_id second_run
   /\ Forall (fun e => e_session_id e <> 2) (bayesdb_session_entries (db second_run))
   /\ dump_session_as_json sample_repr 2 second_run = inr "[]")
  /\ (consistent (sqlite3 (bdb first_run))
      /\ dump_current_session_as_json sample_repr (__init__ (bdb first_run)) = inr "[]").
Proof.
  assert (1 <= 2 <= current_session_id second_run) as Hr
    by (rewrite second_run_session; lia).
  pose proof (dump_of_session_without_entries sample_repr 2 second_run (bdb first_run))
    as (Hempty & _ & Hinit).
  split.
  - split; [exact Hr|]. split; [exact second_run_no_entries|].
    exact (Hempty Hr second_run_no_entries).
  - split; [exact first_run_consistent | exact (Hinit first_run_consistent)].
Defined.

(* ===================================================================== *)
(** ** Histories: the newest session *)
(* ===================================================================== *)

Lemma max_rowid_bound (ids : list Z) (k m : Z) :
  Forall (fun i => i <= k) ids -> max_rowid ids = Some m -> m <= k.
Proof.
  intros H. revert m. induction H as [|i rest Hi _ IH]; intros m Hm; [discriminate|].
  simpl in Hm. destruct (max_rowid rest) as [m'|].
  - injection Hm as <-. specialize (IH m' eq_refl). lia.
  - injection Hm as <-. exact Hi.
Qed.

Lemma max_rowid_none (ids : list Z) : max_rowid ids = None -> ids = [].
Proof.
  destruct ids as [|i rest]; [reflexivity|]. simpl.
  destruct (max_rowid rest); discriminate.
Qed.

Lemma insert_session_after_newest (d : database) (k : Z) :
  last (bayesdb_session d) = Some {| s_id := k |} ->
  sqlite_sequence d !! "bayesdb_session" = Some k ->
  Forall (fun r => s_id r <= k) (bayesdb_session d) ->
  last_insert_rowid (insert_session d) = k + 1.
Proof.
  intros Hlast Hseq Hall. unfold insert_session, new_rowid. cbn [last_insert_rowid].
  rewrite Hseq. change (default 0 (Some k)) with k.
  destruct (max_rowid (map s_id (bayesdb_session d))) as [m|] eqn:Hm.
  - assert (m <= k) by (eapply max_rowid_bound; [|exact Hm]; rewrite Forall_fmap; exact Hall).
    lia.
  - apply max_rowid_none in Hm. destruct (bayesdb_session d); discriminate.
Qed.

Section Histories.

Variable float_repr : Q -> string.
Variable http_post : nat -> string -> list (string * string) -> option string.

Lemma newest_insert_session (self : SessionTracer) (d : database) :
  db self = insert_session d ->
  session_id self = last_insert_rowid (insert_session d) ->
  newest self.
Proof.
  intros Hdb Hsid. unfold newest. rewrite Hdb, Hsid.
  unfold insert_session. cbn [bayesdb_session sqlite_sequence last_insert_rowid].
  split; [apply last_snoc|]. split; [apply lookup_insert_eq|].
  apply Forall_app. split; [|repeat constructor; cbn; lia].
  pose proof (new_rowid_fresh (map s_id (bayesdb_session d))
                (sqlite_sequence d !! "bayesdb_session")) as H.
  rewrite Forall_fmap in H. eapply Forall_impl; [exact H|]. cbn. intros. lia.
Qed.

Lemma newest_init (bdb0 : BayesDB) : newest (__init__ bdb0).
Proof.
  destruct (__init___state bdb0) as (Hdb & Hsid & _).
  eapply newest_insert_session; eassumption.
Qed.

Lemma newest_clear (self : SessionTracer) : newest (clear_all_sessions self).
Proof.
  destruct (clear_all_sessions_db self) as [Hdb Hsid].
  unfold newest. rewrite Hdb, Hsid. cbn [bayesdb_session sqlite_sequence].
  split; [reflexivity|]. split; [apply lookup_insert_eq|].
  repeat constructor. cbn. lia.
Qed.

Lemma newest_run_op (self : SessionTracer) (o : op) :
  newest self -> newest (run_op float_repr self o).
Proof.
  intros (Hlast & Hseq & Hall). destruct o as [type query bindings t | j].
  - rewrite run_op_trace.
    destruct (encode bindings) as [v|]; [|repeat split; assumption].
    unfold newest.
    change (bayesdb_session (db (traced float_repr type query v t self)))
      with (bayesdb_session (db self)).
    change (sqlite_sequence (db (traced float_repr type query v t self)))
      with (<["bayesdb_session_entries" :=
               e_id (traced_entry float_repr type query v t self)]>
              (sqlite_sequence (db self))).
    rewrite lookup_insert_ne by discriminate.
    repeat split; assumption.
  - repeat split; assumption.
Qed.

Lemma newest_run_ops (ops : list op) (self : SessionTracer) :
  newest self -> newest (run_ops float_repr ops self).
Proof.
  revert self. induction ops as [|o ops IH]; intros self H; [exact H|].
  apply IH, newest_run_op, H.
Qed.

Lemma newest_run_steps (steps : list step) (self : SessionTracer) :
  newest self -> newest (run_steps float_repr steps self).
Proof.
  revert self. induction steps as [|st steps IH]; intros self H; [exact H|].
  apply IH. destruct st as [o| |]; cbn [run_step].
  - apply newest_run_op, H.
  - apply newest_clear.
  - apply newest_init.
Qed.

Lemma next_session_id (self : SessionTracer) :
  newest self -> session_id (__init__ (bdb self)) = session_id self + 1.
Proof.
  intros (Hlast & Hseq & Hall).
  destruct (__init___state (bdb self)) as (_ & Hsid & _). rewrite Hsid.
  apply insert_session_after_newest; assumption.
Qed.

(** X1. Through any history that starts with the construction of a
    tracer (queries traced and completed in any order, the log cleared,
    later tracers constructed over the same handle), the session of the
    tracer in use is the last row of the session table and no row has a
    larger id. *)
Theorem current_session_is_newest_row (bdb0 : BayesDB) (steps : list step) :
  let self := run_steps float_repr steps (__init__ bdb0) in
  last (list_sessions self) = Some {| s_id := current_session_id self |}
  /\ Forall (fun r => s_id r <= current_session_id self) (list_sessions self).
Proof.
  intros self.
  destruct (newest_run_steps steps (__init__ bdb0) (newest_init bdb0)) as (Hlast & _ & Hall).
  split; assumption.
Qed.

(** X2. After any such history, the next tracer constructed over the
    handle gets the session id that follows the current one, and its row
    is appended to the session table. *)
Theorem next_tracer_gets_next_session_id (bdb0 : BayesDB) (steps : list step) :
  let self := run_steps float_repr steps (__init__ bdb0) in
  let next := __init__ (bdb self) in
  current_session_id next = current_session_id self + 1
  /\ list_sessions next = list_sessions self ++ [ {| s_id := current_session_id self + 1 |} ].
Proof.
  intros self next.
  pose proof (next_session_id self
                (newest_run_steps steps (__init__ bdb0) (newest_init bdb0))) as Hnext.
  fold next in Hnext. unfold current_session_id. split; [exact Hnext|].
  destruct (__init___state (bdb self)) as (Hdb & Hsid & _). fold next in Hdb, Hsid.
  unfold list_sessions, select_sessions. rewrite Hdb. rewrite <- Hnext, Hsid.
  reflexivity.
Qed.

(* ===================================================================== *)
(** ** Histories: uncompleted entries *)
(* ===================================================================== *)

Lemma uncompleted_in_app (sid : Z) (l1 l2 : list entry_row) :
  uncompleted_in sid (l1 ++ l2) = uncompleted_in sid l1 + uncompleted_in sid l2.
Proof.
  unfold uncompleted_in. rewrite filter_app, List.length_app. lia.
Qed.

Lemma uncompleted_in_update (sid i : Z) (l : list entry_row) :
  uncompleted_in sid
    (map (fun x => if decide (e_id x = i) then set_completed x else x) l)
  <= uncompleted_in sid l.
Proof.
  unfold uncompleted_in. induction l as [|x l IH]; [reflexivity|].
  cbn [map]. rewrite !filter_cons.
  destruct (decide (e_id x = i)) as [Hi|Hi].
  - rewrite decide_False by (cbn; intros [H _]; discriminate H).
    destruct (decide (e_completed x = 0 /\ e_session_id x = sid)); cbn [length]; lia.
  - destruct (decide (e_completed x = 0 /\ e_session_id x = sid)); cbn [length]; lia.
Qed.


Lemma trace_then_finish_entries type query bindings t self :
  bayesdb_session_entries
    (db (_finish (e_id (traced_entry float_repr type query bindings t self))
                 (traced float_repr type query bindings t self)))
  = bayesdb_session_entries (db self)
    ++ [set_completed (traced_entry float_repr type query bindings t self)].
Proof.
  set (e := traced_entry float_repr type query bindings t self).
  change (map (fun x => if decide (e_id x = e_id e) then set_completed x else x)
              (bayesdb_session_entries (db self) ++ [e])
          = bayesdb_session_entries (db self) ++ [set_completed e]).
  rewrite map_app. cbn [map]. rewrite decide_True by reflexivity.
  rewrite update_untouched; [reflexivity|].
  eapply Forall_impl; [apply (traced_entry_fresh float_repr type query bindings t self)|].
  intros x Hx. cbn beta in Hx |- *. unfold e. lia.
Qed.

(** X3. For every session id, a trace call that returns raises the
    number of uncompleted entries by one when the id is the current
    session and leaves it unchanged otherwise; with the completion
    callback called next the number is back to what it was before the
    query; and a completion call, with any entry id, never raises the
    number. *)
Theorem uncompleted_count_through_a_query (type q : string) (b : pyobject) (t : Q)
    (self : SessionTracer) (sid i : Z) :
  (forall self1 finish,
      _trace float_repr type q b t self = inr (self1, finish) ->
      count_uncompleted sid (db self1)
      = count_uncompleted sid (db self) + (if decide (sid = session_id self) then 1 else 0)
      /\ count_uncompleted sid (db (finish self1)) = count_uncompleted sid (db self))
  /\ count_uncompleted sid (db (_finish i self)) <= count_uncompleted sid (db self).
Proof.
  split; [|apply uncompleted_in_update].
  intros self1 finish Htrace.
  apply _trace_returns in Htrace as (v & _ & -> & ->).
  change (uncompleted_in sid (bayesdb_session_entries (db (traced float_repr type q v t self)))
          = uncompleted_in sid (bayesdb_session_entries (db self))
            + (if decide (sid = session_id self) then 1 else 0)
          /\ uncompleted_in sid
               (bayesdb_session_entries
                  (db (_finish (e_id (traced_entry float_repr type q v t self))
                               (traced float_repr type q v t self))))
             = uncompleted_in sid (bayesdb_session_entries (db self))).
  split.
  - rewrite _trace_entries, uncompleted_in_app. f_equal.
    unfold uncompleted_in. rewrite filter_cons, filter_nil. cbn [e_completed e_session_id traced_entry].
    destruct (decide (sid = session_id self)) as [->|Hne].
    + rewrite decide_True by (split; reflexivity). reflexivity.
    + rewrite decide_False by (intros [_ H]; congruence). reflexivity.
  - rewrite trace_then_finish_entries, uncompleted_in_app.
    unfold uncompleted_in at 2. rewrite filter_cons, filter_nil.
    rewrite decide_False by (cbn; intros [H _]; discriminate H). cbn [length]. lia.
Qed.

Lemma __init___out (bdb0 : BayesDB) :
  out (__init__ bdb0)
  = if (0 <? uncompleted_in (session_id (__init__ bdb0) - 1)
                            (bayesdb_session_entries (sqlite3 bdb0)))%Z
    then [WARNING] else [].
Proof.
  destruct (__init___state bdb0) as (_ & Hsid & _).
  set (s1 := _start_new_session (start_saving_sessions
                {| out := []; bdb := bdb0; session_id := 0 |})).
  destruct (_check_unfinished_entries_spec s1) as (_ & _ & _ & Hout).
  rewrite Hsid. exact Hout.
Qed.

Lemma run_ops_session_id (ops : list op) (self : SessionTracer) :
  session_id (run_ops float_repr ops self) = session_id self.
Proof.
  revert self. induction ops as [|o ops IH]; intros self; [reflexivity|].
  cbn [run_ops fold_left]. fold (run_ops float_repr ops (run_op float_repr self o)).
  rewrite IH. destruct o as [type query bindings t | j]; [|reflexivity].
  rewrite run_op_trace. destruct (encode bindings); reflexivity.
Qed.



Lemma traced_and_completed_keeps (self : SessionTracer)
    (q : string * string * pyobject * Q) (sid : Z) :
  newest self ->
  newest (traced_and_completed float_repr self q)
  /\ session_id (traced_and_completed float_repr self q) = session_id self
  /\ uncompleted_in sid (bayesdb_session_entries (db (traced_and_completed float_repr self q)))
     = uncompleted_in sid (bayesdb_session_entries (db self)).
Proof.
  intros Hnew. destruct q as [[[type query] bindings] t].
  unfold traced_and_completed.
  destruct (encode bindings) as [v|] eqn:Hv;
    [rewrite (_trace_encodable float_repr _ _ _ v) by exact Hv
    |rewrite _trace_unencodable by exact Hv;
     split; [exact Hnew | split; reflexivity]].
  split; [|split].
  - pose proof (newest_run_ops
                  [OpTrace type query bindings t;
                   OpFinish (e_id (traced_entry float_repr type query v t self))]
                  self Hnew) as H.
    cbn [run_ops fold_left] in H. rewrite run_op_trace, Hv in H. exact H.
  - reflexivity.
  - rewrite trace_then_finish_entries, uncompleted_in_app.
    unfold uncompleted_in at 2. rewrite filter_cons, filter_nil.
    rewrite decide_False by (cbn; intros [H _]; discriminate H). cbn [length]. lia.
Qed.

Lemma run_completed_keeps (qs : list (string * string * pyobject * Q))
    (self : SessionTracer) (sid : Z) :
  newest self ->
  newest (run_completed float_repr qs self)
  /\ session_id (run_completed float_repr qs self) = session_id self
  /\ uncompleted_in sid (bayesdb_session_entries (db (run_completed float_repr qs self)))
     = uncompleted_in sid (bayesdb_session_entries (db self)).
Proof.
  revert self. induction qs as [|q qs IH]; intros self Hnew;
    [split; [exact Hnew | split; reflexivity]|].
  destruct (traced_and_completed_keeps self q sid Hnew) as (Hn & Hs & Hc).
  destruct (IH _ Hn) as (Hn' & Hs' & Hc').
  cbn [run_completed fold_left].
  fold (run_completed float_repr qs (traced_and_completed float_repr self q)).
  split; [exact Hn'|]. split; [rewrite Hs'; exact Hs | rewrite Hc'; exact Hc].
Qed.

(** X5. After any history in which the current session has no
    uncompleted entry, any number of queries that are traced and then
    completed, one after the other, leave the next tracer constructed
    over the handle without a warning. *)
Theorem completed_queries_leave_no_warning (bdb0 : BayesDB) (steps : list step)
    (qs : list (string * string * pyobject * Q)) :
  let self := run_steps float_repr steps (__init__ bdb0) in
  count_uncompleted (current_session_id self) (db self) = 0 ->
  out (__init__ (bdb (run_completed float_repr qs self))) = [].
Proof.
  intros self Hzero.
  assert (newest self) as Hnew by apply newest_run_steps, newest_init.
  destruct (run_completed_keeps qs self (session_id self) Hnew) as (Hn & Hs & Hc).
  rewrite __init___out, (next_session_id _ Hn), Hs.
  replace (session_id self + 1 - 1) with (session_id self) by lia.
  change (bayesdb_session_entries (sqlite3 (bdb (run_completed float_repr qs self))))
    with (bayesdb_session_entries (db (run_completed float_repr qs self))).
  rewrite Hc. change (count_uncompleted (session_id self) (db self) = 0) in Hzero.
  unfold count_uncompleted in Hzero. unfold uncompleted_in. rewrite Hzero. reflexivity.
Qed.

(* ===================================================================== *)
(** ** Histories: invariants of the store *)
(* ===================================================================== *)

Lemma run_steps_consistent (steps : list step) (self : SessionTracer) :
  tracer_consistent self -> tracer_consistent (run_steps float_repr steps self).
Proof.
  revert self. induction steps as [|st steps IH]; intros self H; [exact H|].
  apply IH. destruct st as [o| |]; cbn [run_step].
  - apply run_op_consistent, H.
  - apply clear_all_sessions_consistent.
  - apply __init___consistent, H.
Qed.

(** X6. Over a consistent store (no entry refers to a session id that
    has not been handed out yet), after any history every entry of the
    entry table belongs to a session id that is at most the current
    one. *)
Theorem entries_never_belong_to_a_future_session (bdb0 : BayesDB) (steps : list step) :
  consistent (sqlite3 bdb0) ->
  let self := run_steps float_repr steps (__init__ bdb0) in
  Forall (fun e => e_session_id e <= current_session_id self)
         (bayesdb_session_entries (db self)).
Proof.
  intros Hc self.
  destruct (run_steps_consistent steps (__init__ bdb0) (__init___consistent bdb0 Hc))
    as [[_ Hent] _].
  destruct (newest_run_steps steps (__init__ bdb0) (newest_init bdb0)) as (_ & Hseq & _).
  fold self in Hent, Hseq. rewrite Hseq in Hent. exact Hent.
Qed.

Lemma increasing_snoc (l : list Z) (v : Z) :
  StronglySorted Z.lt l -> Forall (fun i => i < v) l -> StronglySorted Z.lt (l ++ [v]).
Proof.
  intros Hl Hv. apply StronglySorted_app_2; [|exact Hl|repeat constructor].
  intros x1 x2 H1 H2. apply list_elem_of_singleton in H2 as ->.
  rewrite Forall_forall in Hv. apply Hv, H1.
Qed.

Lemma increasing_NoDup (l : list Z) : StronglySorted Z.lt l -> NoDup l.
Proof.
  induction 1 as [|x l _ IH Hx]; [constructor|].
  constructor; [|exact IH].
  intros Hin. rewrite Forall_forall in Hx. specialize (Hx x Hin). lia.
Qed.

Lemma keys_increasing_insert_session (d : database) :
  keys_increasing d -> keys_increasing (insert_session d).
Proof.
  intros [Hs He]. split; [|exact He].
  unfold insert_session. cbn [bayesdb_session]. rewrite map_app. cbn [map s_id].
  apply increasing_snoc; [exact Hs | apply new_rowid_fresh].
Qed.

Lemma keys_increasing_run_op (self : SessionTracer) (o : op) :
  keys_increasing (db self) -> keys_increasing (db (run_op float_repr self o)).
Proof.
  intros [Hs He]. destruct o as [type query bindings t | j];
    [rewrite run_op_trace | cbn [run_op]].
  - destruct (encode bindings) as [v|]; [|split; assumption].
    split; [exact Hs|]. rewrite _trace_entries, map_app. cbn [map].
    apply increasing_snoc; [exact He|].
    pose proof (traced_entry_fresh float_repr type query v t self) as Hf.
    rewrite Forall_fmap. exact Hf.
  - split; [exact Hs|].
    change (StronglySorted Z.lt
              (map e_id (map (fun x => if decide (e_id x = j) then set_completed x else x)
                             (bayesdb_session_entries (db self))))).
    rewrite map_map.
    erewrite map_ext; [exact He|].
    intros x. cbn beta. destruct (decide (e_id x = j)); reflexivity.
Qed.

Lemma keys_increasing_run_steps (steps : list step) (self : SessionTracer) :
  keys_increasing (db self) -> keys_increasing (db (run_steps float_repr steps self)).
Proof.
  revert self. induction steps as [|st steps IH]; intros self H; [exact H|].
  apply IH. destruct st as [o| |]; cbn [run_step].
  - apply keys_increasing_run_op, H.
  - destruct (clear_all_sessions_db self) as [Hdb _]. rewrite Hdb.
    split; cbn; repeat constructor.
  - destruct (__init___state (bdb self)) as (Hdb & _). rewrite Hdb.
    apply keys_increasing_insert_session, H.
Qed.

(** X7. If both tables list their rows by strictly increasing id when
    the first tracer is constructed, they do so after any history; in
    particular no two sessions and no two entries ever share an id. *)
Theorem ids_stay_increasing_and_unique (bdb0 : BayesDB) (steps : list step) :
  keys_increasing (sqlite3 bdb0) ->
  let self := run_steps float_repr steps (__init__ bdb0) in
  StronglySorted Z.lt (map s_id (list_sessions self))
  /\ StronglySorted Z.lt (map e_id (bayesdb_session_entries (db self)))
  /\ NoDup (map s_id (list_sessions self))
  /\ NoDup (map e_id (bayesdb_session_entries (db self))).
Proof.
  intros H0 self.
  assert (keys_increasing (db self)) as [Hs He].
  { apply keys_increasing_run_steps.
    destruct (__init___state bdb0) as (Hdb & _). rewrite Hdb.
    apply keys_increasing_insert_session, H0. }
  repeat split; try assumption; apply increasing_NoDup; assumption.
Qed.

(* ===================================================================== *)
(** ** A traced query in the dumps *)
(* ===================================================================== *)

(** X8. A traced query, with bindings that encode (as [v]), shows at
    once in the dump of the current session: its rows are the rows it
    had and the new row, with [completed = 0].  The dump of any other
    session id, the session table and the current session id are what
    they were. *)
Theorem traced_query_shows_in_current_dump_only (type q : string) (b : pyobject)
    (v : pyval) (t : Q) (self : SessionTracer) (sid : Z) :
  let e := traced_entry float_repr type q v t self in
  encode b = Some v ->
  exists self1 finish,
    _trace float_repr type q b t self = inr (self1, finish)
    /\ dump_session_rows (current_session_id self) self1
       ≡ₚ entry_tuple e :: dump_session_rows (current_session_id self) self
    /\ e_completed e = 0
    /\ (sid <> current_session_id self ->
        dump_session_as_json float_repr sid self1 = dump_session_as_json float_repr sid self)
    /\ list_sessions self1 = list_sessions self
    /\ current_session_id self1 = current_session_id self.
Proof.
  intros e Hv.
  set (self1 := traced float_repr type q v t self).
  exists self1, (fun self' => _finish (e_id e) self').
  split; [apply _trace_encodable, Hv|].
  split; [|split; [reflexivity|split; [|split; reflexivity]]].
  - unfold dump_session_rows, current_session_id.
    change (entry_tuple e :: map entry_tuple (select_entries (session_id self) (db self)))
      with (map entry_tuple (e :: select_entries (session_id self) (db self))).
    apply Permutation_map.
    rewrite !select_entries_perm. unfold self1. rewrite _trace_entries, filter_app.
    rewrite filter_cons, filter_nil, decide_True by reflexivity.
    symmetry. apply Permutation_cons_append.
  - intros Hne. unfold dump_session_as_json, dump_session_rows, select_entries.
    unfold self1 at 2. rewrite _trace_entries, filter_app.
    rewrite filter_cons, filter_nil.
    rewrite decide_False by (cbn; unfold current_session_id in Hne; congruence).
    rewrite app_nil_r. reflexivity.
Qed.

(* ===================================================================== *)
(** ** Clearing, again *)
(* ===================================================================== *)

Lemma clear_all_sessions_state (self : SessionTracer) :
  clear_all_sessions self
  = {| out := out self;
       bdb := {| sqlite3 :=
                   {| bayesdb_session := [ {| s_id := 1 |} ];
                      bayesdb_session_entries := [];
                      sqlite_sequence :=
                        <["bayesdb_session" := 1]>
                          (delete "bayesdb_session_entries"
                             (delete "bayesdb_session" (sqlite_sequence (db self))));
                      last_insert_rowid := 1 |};
                 bql_traced := bql_traced (bdb self);
                 sql_traced := sql_traced (bdb self) |};
       session_id := 1 |}.
Proof.
  unfold clear_all_sessions, _start_new_session, insert_session, with_sqlite3, db.
  cbn -[new_rowid]. unfold new_rowid.
  rewrite lookup_delete_ne by discriminate.
  rewrite lookup_delete_eq. reflexivity.
Qed.

(** X9. Clearing the log twice gives the tracer that clearing it once
    gives: the same store, sequence rows of other tables included, the
    same session id, printed lines and registrations. *)
Theorem clear_all_sessions_twice (self : SessionTracer) :
  clear_all_sessions (clear_all_sessions self) = clear_all_sessions self.
Proof.
  - rewrite (clear_all_sessions_state (clear_all_sessions self)).
    rewrite (clear_all_sessions_state self). cbn [out bdb db sqlite3 bql_traced sql_traced sqlite_sequence].
    do 3 f_equal. f_equal.
    apply map_eq. intros name.
    destruct (decide (name = "bayesdb_session_entries")) as [->|H2].
    { rewrite !lookup_delete_eq. reflexivity. }
    rewrite !(lookup_delete_ne _ "bayesdb_session_entries" name) by congruence.
    destruct (decide (name = "bayesdb_session")) as [->|H1].
    { rewrite !lookup_delete_eq. reflexivity. }
    rewrite !(lookup_delete_ne _ "bayesdb_session" name) by congruence.
    rewrite lookup_insert_ne by congruence.
    rewrite !lookup_delete_ne by congruence. reflexivity.
Qed.

(** X10. Entry ids start again at 1 after a clear, so a completion
    callback kept from before the clear names the same id as the first
    query traced after it: called then, it acts exactly like the
    callback of that new query and marks the new entry completed. *)
Theorem stale_callback_completes_the_new_entry (self : SessionTracer)
    (type q : string) (b : pyobject) (t : Q) (ops : list op)
    (type' q' : string) (b' : pyobject) (v' : pyval) (t' : Q)
    (self1 : SessionTracer) (stale : SessionTracer -> SessionTracer) :
  let self0 := clear_all_sessions self in
  let self2 := clear_all_sessions (run_ops float_repr ops self1) in
  _trace float_repr type q b t self0 = inr (self1, stale) ->
  encode b' = Some v' ->
  exists self3 fresh,
    _trace float_repr type' q' b' t' self2 = inr (self3, fresh)
    /\ stale self3 = fresh self3
    /\ bayesdb_session_entries (db (stale self3))
       = [ set_completed (traced_entry float_repr type' q' v' t' self2) ].
Proof.
  intros self0 self2 Htrace Hv'.
  apply _trace_returns in Htrace as (v & _ & _ & ->).
  assert (forall s ty qq bb tt,
             e_id (traced_entry float_repr ty qq bb tt (clear_all_sessions s)) = 1) as Hid.
  { intros s ty qq bb tt. unfold traced_entry. cbn [e_id].
    destruct (clear_all_sessions_db s) as [-> _]. cbn [bayesdb_session_entries sqlite_sequence].
    rewrite lookup_insert_ne by discriminate. rewrite lookup_delete_eq. reflexivity. }
  set (self3 := traced float_repr type' q' v' t' self2).
  exists self3, (fun self' => _finish (e_id (traced_entry float_repr type' q' v' t' self2)) self').
  split; [apply _trace_encodable, Hv'|].
  assert (_finish (e_id (traced_entry float_repr type q v t self0)) self3
          = _finish (e_id (traced_entry float_repr type' q' v' t' self2)) self3) as Heq
    by (unfold self0, self2; rewrite !Hid; reflexivity).
  split; [exact Heq|]. rewrite Heq.
  unfold self3. rewrite trace_then_finish_entries.
  unfold self2 at 1. destruct (clear_all_sessions_db (run_ops float_repr ops self1)) as [-> _].
  reflexivity.
Qed.

(* ===================================================================== *)
(** ** Uploading, again *)
(* ===================================================================== *)

(** The loop over ids in range, started after [n] POSTs, when the POSTs
    for [ids1] are answered and the POST for [k] raises: it stops at
    [k]. *)
Lemma send_loop_stops (ids1 : list Z) (k : Z) (ids2 : list Z) (n : nat)
    (self : SessionTracer) :
  Forall (fun id => 1 <= id <= session_id self) (ids1 ++ k :: ids2) ->
  (forall (i : nat) (id : Z),
      ids1 !! i = Some id ->
      is_Some (http_post (n + i) probcomp_url (snd (session_post float_repr id self)))) ->
  http_post (n + length ids1) probcomp_url (snd (session_post float_repr k self)) = None ->
  exists self',
    send_loop float_repr http_post (ids1 ++ k :: ids2) n self
    = (self', map (fun id => session_post float_repr id self) (ids1 ++ [k]),
       Some RequestException)
    /\ bdb self' = bdb self /\ session_id self' = session_id self.
Proof.
  revert n self. induction ids1 as [|id ids1 IH]; intros n self Hr Hok Hk.
  - cbn [app length] in *. rewrite Nat.add_0_r in Hk.
    apply Forall_cons in Hr as [Hr _].
    cbn [send_loop]. set (self1 := _print _ self).
    rewrite (dump_in_range float_repr k self1) by exact Hr.
    change (http_post n probcomp_url
              [("session_json", dumps float_repr (PList (dump_session_rows k self1)))])
      with (http_post n probcomp_url (snd (session_post float_repr k self))).
    rewrite Hk. eexists. split; [reflexivity|]. split; reflexivity.
  - cbn [app length] in *. apply Forall_cons in Hr as [Hid Hr].
    destruct (Hok 0%nat id eq_refl) as [text Htext]. rewrite Nat.add_0_r in Htext.
    cbn [send_loop]. set (self1 := _print _ self).
    rewrite (dump_in_range float_repr id self1) by exact Hid.
    change (http_post n probcomp_url
              [("session_json", dumps float_repr (PList (dump_session_rows id self1)))])
      with (http_post n probcomp_url (snd (session_post float_repr id self))).
    rewrite Htext.
    match goal with |- context [send_loop _ _ _ _ ?s] =>
      destruct (IH (S n) s Hr) as (self' & Hloop & Hbdb & Hsid) end.
    + intros i id' Hi. specialize (Hok (S i) id' Hi).
      rewrite Nat.add_succ_r in Hok. exact Hok.
    + rewrite Nat.add_succ_r in Hk. exact Hk.
    + rewrite Hloop. exists self'. split; [reflexivity|]. split; assumption.
Qed.

(** X11. Let the POSTs be numbered from 0 in the order in which
    [send_session_data] issues them, so that the POST of session [id]
    has number [id - 1].  If the POSTs of the sessions before [k] are
    answered and the POST of session [k] raises, [send_session_data]
    ends with that exception after the POSTs of the sessions 1 to [k],
    in this order; the sessions after [k] are not posted. *)
Theorem send_session_data_stops_at_failed_post (self : SessionTracer) (k : Z) :
  1 <= k <= current_session_id self ->
  (forall id, 1 <= id < k ->
     is_Some (http_post (Z.to_nat (id - 1)) probcomp_url
                (snd (session_post float_repr id self)))) ->
  http_post (Z.to_nat (k - 1)) probcomp_url (snd (session_post float_repr k self)) = None ->
  exists self',
    send_session_data float_repr http_post self
    = (self', map (fun id => session_post float_repr id self) (seqZ 1 k),
       Some RequestException)
    /\ bdb self' = bdb self.
Proof.
  unfold current_session_id. intros Hk Hok Hfail. unfold send_session_data.
  assert (seqZ 1 (session_id self)
          = seqZ 1 (k - 1) ++ k :: seqZ (k + 1) (session_id self - k)) as ->.
  { transitivity (seqZ 1 ((k - 1) + (1 + (session_id self - k)))); [f_equal; lia|].
    rewrite seqZ_app by lia. f_equal.
    rewrite seqZ_cons by lia. f_equal; [lia | f_equal; lia]. }
  assert (seqZ 1 k = seqZ 1 (k - 1) ++ [k]) as ->.
  { transitivity (seqZ 1 ((k - 1) + 1)); [f_equal; lia|].
    rewrite seqZ_app by lia. f_equal.
    rewrite seqZ_cons by lia. rewrite seqZ_nil by lia. f_equal. lia. }
  destruct (send_loop_stops (seqZ 1 (k - 1)) k (seqZ (k + 1) (session_id self - k)) 0 self)
    as (self' & Hloop & Hbdb & _).
  - apply Forall_forall. intros id Hid.
    apply elem_of_app in Hid as [Hid|Hid].
    + apply list_elem_of_lookup in Hid as [i Hi]. apply lookup_seqZ in Hi. lia.
    + apply elem_of_cons in Hid as [->|Hid]; [lia|].
      apply list_elem_of_lookup in Hid as [i Hi]. apply lookup_seqZ in Hi. lia.
  - intros i id Hi. apply lookup_seqZ in Hi as [-> Hi].
    replace (0 + i)%nat with (Z.to_nat (1 + Z.of_nat i - 1)) by lia.
    apply Hok. lia.
  - rewrite length_seqZ. cbn [Nat.add]. exact Hfail.
  - exists self'. split; [exact Hloop | exact Hbdb].
Qed.

Lemma send_loop_out (len : nat) (a : Z) (self : SessionTracer) :
  1 <= a -> a + Z.of_nat len - 1 <= session_id self ->
  (forall n form, is_Some (http_post n probcomp_url form)) ->
  out (fst (fst (send_loop float_repr http_post (seqZ a (Z.of_nat len))
                   (Z.to_nat (a - 1)) self)))
  = out self
    ++ concat (map (fun id =>
                      upload_lines float_repr id self
                        (default "" (http_post (Z.to_nat (id - 1)) probcomp_url
                                       (snd (session_post float_repr id self)))))
                   (seqZ a (Z.of_nat len))).
Proof.
  intros Ha Hr Hok. revert a self Ha Hr. induction len as [|len IH]; intros a self Ha Hr.
  - cbn. symmetry. apply app_nil_r.
  - rewrite seqZ_cons by lia.
    replace (Z.pred (Z.of_nat (S len))) with (Z.of_nat len) by lia.
    cbn [send_loop]. set (self1 := _print _ self).
    rewrite (dump_in_range float_repr a self1) by (cbn; lia).
    change (http_post (Z.to_nat (a - 1)) probcomp_url
              [("session_json", dumps float_repr (PList (dump_session_rows a self1)))])
      with (http_post (Z.to_nat (a - 1)) probcomp_url
              (snd (session_post float_repr a self))).
    destruct (Hok (Z.to_nat (a - 1)) (snd (session_post float_repr a self)))
      as [text Htext].
    rewrite Htext.
    replace (S (Z.to_nat (a - 1))) with (Z.to_nat (Z.succ a - 1)) by lia.
    match goal with |- context [send_loop _ _ _ _ ?s] =>
      specialize (IH (Z.succ a) s);
      destruct (send_loop float_repr http_post (seqZ (Z.succ a) (Z.of_nat len))
                  (Z.to_nat (Z.succ a - 1)) s) as [[self' posts] r] end.
    cbn [fst] in *. rewrite IH by (cbn; lia). cbn [map concat]. rewrite Htext.
    change (default "" (Some text)) with text.
    unfold self1. cbn [out _print]. rewrite <- !app_assoc. reflexivity.
Qed.

(** X12. When every POST is answered, [send_session_data] adds to the
    lines printed so far exactly three lines per session, for the
    sessions 1 to the current one in this order: the announcement with
    the id and the endpoint, the JSON dump, and the response text of the
    POST of that session (the POST number [id - 1]). *)
Theorem send_session_data_prints_three_lines_per_session (self : SessionTracer) :
  (forall n form, is_Some (http_post n probcomp_url form)) ->
  out (fst (fst (send_session_data float_repr http_post self)))
  = out self
    ++ concat (map (fun id =>
                      ["Sending session " +:+ pretty id +:+ " to " +:+ probcomp_url +:+ " ...";
                       dumps float_repr (PList (dump_session_rows id self));
                       "Response: "
                       +:+ default "" (http_post (Z.to_nat (id - 1)) probcomp_url
                             [("session_json",
                               dumps float_repr (PList (dump_session_rows id self)))])])
                   (seqZ 1 (current_session_id self))).
Proof.
  intros Hok. unfold send_session_data, current_session_id.
  destruct (decide (0 <= session_id self)) as [Hpos|Hneg].
  - pose proof (send_loop_out (Z.to_nat (session_id self)) 1 self) as H.
    rewrite Z2Nat.id in H by exact Hpos.
    apply H; [lia | lia | exact Hok].
  - rewrite seqZ_nil by lia. cbn. symmetry. apply app_nil_r.
Qed.

(** X13. Right after [clear_all_sessions], whatever the log held and
    whatever the endpoint does, [send_session_data] issues exactly one
    POST, for session 1, and its form field is the empty JSON array. *)
Theorem send_session_data_after_clear (self : SessionTracer) :
  exists self' r,
    send_session_data float_repr http_post (clear_all_sessions self)
    = (self', [(probcomp_url, [("session_json", "[]")])], r)
    /\ (r = None \/ r = Some RequestException).
Proof.
  destruct (clear_all_sessions_db self) as [Hdb Hsid].
  unfold send_session_data. rewrite Hsid.
  change (seqZ 1 1) with [1]. cbn [send_loop].
  set (self1 := _print _ (clear_all_sessions self)).
  rewrite (dump_no_entries float_repr 1 self1).
  - destruct (http_post 0%nat probcomp_url [("session_json", "[]")]) as [text|].
    + eexists _, None. split; [reflexivity | left; reflexivity].
    + eexists _, (Some RequestException). split; [reflexivity | right; reflexivity].
  - change (session_id self1) with (session_id (clear_all_sessions self)).
    rewrite Hsid. lia.
  - change (db self1) with (db (clear_all_sessions self)). rewrite Hdb. constructor.
Qed.

(* ===================================================================== *)
(** ** Dumping the current session *)
(* ===================================================================== *)

Lemma positive_session_run_steps (steps : list step) (self : SessionTracer) :
  tracer_consistent self /\ 1 <= session_id self ->
  tracer_consistent (run_steps float_repr steps self)
  /\ 1 <= session_id (run_steps float_repr steps self).
Proof.
  revert self. induction steps as [|st steps IH]; intros self [Hc Hpos]; [split; assumption|].
  apply IH. destruct st as [o| |]; cbn [run_step].
  - split; [apply run_op_consistent, Hc|].
    rewrite <- (run_ops_session_id [o] self) in Hpos. exact Hpos.
  - split; [apply clear_all_sessions_consistent|].
    destruct (clear_all_sessions_db self) as [_ ->]. lia.
  - destruct Hc as [Hc _]. split; [apply __init___consistent, Hc|].
    destruct (__init___state (bdb self)) as (_ & -> & _).
    destruct (insert_session_consistent _ Hc) as (_ & _ & H & _). exact H.
Qed.

(** X14. Over a consistent store, after any history the current session
    id is at least 1, so [dump_current_session_as_json] does not raise:
    it returns the JSON text of the rows of the current session. *)
Theorem dump_current_session_never_raises (bdb0 : BayesDB) (steps : list step) :
  consistent (sqlite3 bdb0) ->
  let self := run_steps float_repr steps (__init__ bdb0) in
  1 <= current_session_id self
  /\ dump_current_session_as_json float_repr self
     = inr (dumps float_repr (PList (dump_session_rows (current_session_id self) self))).
Proof.
  intros Hc self.
  assert (1 <= session_id self) as Hpos.
  { apply positive_session_run_steps. split; [apply __init___consistent, Hc|].
    destruct (__init___state bdb0) as (_ & -> & _).
    destruct (insert_session_consistent _ Hc) as (_ & _ & H & _). exact H. }
  split; [exact Hpos|].
  unfold dump_current_session_as_json, current_session_id.
  apply dump_in_range. lia.
Qed.

End Histories.

(* ===================================================================== *)
(** ** The sample runs, continued *)
(* ===================================================================== *)

Lemma uncompleted_count_through_a_query_witness :
  before_clear = inr (traced_once, finish_once)
  /\ count_uncompleted 1 (db traced_once) = count_uncompleted 1 (db (__init__ fresh_bdb)) + 1
  /\ count_uncompleted 1 (db (finish_once traced_once))
     = count_uncompleted 1 (db (__init__ fresh_bdb)).
Proof.
  split; [exact before_clear_returns|].
  exact (proj1 (uncompleted_count_through_a_query sample_repr "bql" "SELECT 1;"
                  (OTuple []) (1 # 2) (__init__ fresh_bdb) 1 0)
           traced_once finish_once before_clear_returns).
Defined.


Lemma completed_queries_leave_no_warning_witness :
  count_uncompleted (current_session_id (__init__ fresh_bdb)) (db (__init__ fresh_bdb)) = 0
  /\ out (__init__ (bdb (run_completed sample_repr
                           [("bql", "SELECT 1;", OTuple [], 1 # 2);
                            ("sql", "SELECT ?", OTuple [OInt 1], 3 # 2)]
                           (__init__ fresh_bdb))))
     = [].
Proof.
  assert (count_uncompleted (current_session_id (__init__ fresh_bdb))
                            (db (__init__ fresh_bdb)) = 0) as H
    by (vm_compute; reflexivity).
  split; [exact H|].
  exact (completed_queries_leave_no_warning sample_repr fresh_bdb [] _ H).
Defined.

Lemma entries_never_belong_to_a_future_session_witness :
  consistent (sqlite3 (bdb first_run))
  /\ Forall (fun e => e_session_id e <= 3)
            (bayesdb_session_entries
               (db (run_steps sample_repr
                      [StepOp (OpTrace "sql" "SELECT 2;" (OTuple []) (5 # 2)); StepRestart]
                      (__init__ (bdb first_run))))).
Proof.
  split; [exact first_run_consistent|].
  exact (entries_never_belong_to_a_future_session sample_repr (bdb first_run)
           [StepOp (OpTrace "sql" "SELECT 2;" (OTuple []) (5 # 2)); StepRestart]
           first_run_consistent).
Defined.

Lemma fresh_bdb_keys_increasing : keys_increasing (sqlite3 fresh_bdb).
Proof. split; constructor. Qed.

Lemma ids_stay_increasing_and_unique_witness :
  keys_increasing (sqlite3 fresh_bdb)
  /\ NoDup (map e_id (bayesdb_session_entries
                        (db (run_steps sample_repr
                               [StepOp (OpTrace "bql" "SELECT 1;" (OTuple []) (1 # 2));
                                StepRestart;
                                StepOp (OpTrace "bql" "SELECT 2;" (OTuple []) (3 # 2));
                                StepOp (OpFinish 2)]
                               (__init__ fresh_bdb))))).
Proof.
  split; [exact fresh_bdb_keys_increasing|].
  exact (proj2 (proj2 (proj2
           (ids_stay_increasing_and_unique sample_repr fresh_bdb
              [StepOp (OpTrace "bql" "SELECT 1;" (OTuple []) (1 # 2));
               StepRestart;
               StepOp (OpTrace "bql" "SELECT 2;" (OTuple []) (3 # 2));
               StepOp (OpFinish 2)]
              fresh_bdb_keys_increasing)))).
Defined.

Lemma traced_query_shows_in_current_dump_only_witness :
  encode (OTuple []) = Some (PTuple [])
  /\ 1 <> current_session_id second_run
  /\ exists self1 finish,
      _trace sample_repr "bql" "SELECT 2;" (OTuple []) (5 # 2) second_run
      = inr (self1, finish)
      /\ dump_session_as_json sample_repr 1 self1
         = dump_session_as_json sample_repr 1 second_run.
Proof.
  assert (encode (OTuple []) = Some (PTuple [])) as Hv by reflexivity.
  assert (1 <> current_session_id second_run) as H
    by (rewrite second_run_session; lia).
  split; [exact Hv|]. split; [exact H|].
  destruct (traced_query_shows_in_current_dump_only sample_repr
              "bql" "SELECT 2;" (OTuple []) (PTuple []) (5 # 2) second_run 1 Hv)
    as (self1 & finish & Htrace & _ & _ & Hother & _).
  exists self1, finish. split; [exact Htrace | exact (Hother H)].
Defined.

Lemma stale_callback_completes_the_new_entry_witness :
  _trace sample_repr "bql" "SELECT 1;" (OTuple []) (1 # 2)
    (clear_all_sessions (__init__ fresh_bdb))
  = inr (traced sample_repr "bql" "SELECT 1;" (PTuple []) (1 # 2)
           (clear_all_sessions (__init__ fresh_bdb)),
         finish_once)
  /\ encode (OTuple [OInt 7]) = Some (PTuple [PInt 7])
  /\ exists self3 fresh,
      _trace sample_repr "sql" "SELECT ?" (OTuple [OInt 7]) (3 # 2)
        (clear_all_sessions
           (run_ops sample_repr []
              (traced sample_repr "bql" "SELECT 1;" (PTuple []) (1 # 2)
                 (clear_all_sessions (__init__ fresh_bdb)))))
      = inr (self3, fresh)
      /\ finish_once self3 = fresh self3.
Proof.
  assert (_trace sample_repr "bql" "SELECT 1;" (OTuple []) (1 # 2)
            (clear_all_sessions (__init__ fresh_bdb))
          = inr (traced sample_repr "bql" "SELECT 1;" (PTuple []) (1 # 2)
                   (clear_all_sessions (__init__ fresh_bdb)),
                 finish_once)) as Htrace by (vm_compute; reflexivity).
  assert (encode (OTuple [OInt 7]) = Some (PTuple [PInt 7])) as Hv by reflexivity.
  split; [exact Htrace|]. split; [exact Hv|].
  destruct (stale_callback_completes_the_new_entry sample_repr (__init__ fresh_bdb)
              "bql" "SELECT 1;" (OTuple []) (1 # 2) []
              "sql" "SELECT ?" (OTuple [OInt 7]) (PTuple [PInt 7]) (3 # 2)
              _ finish_once Htrace Hv)
    as (self3 & fresh & Hfresh & Heq & _).
  exists self3, fresh. split; [exact Hfresh | exact Heq].
Defined.

Lemma two_empty_sessions_session : current_session_id two_empty_sessions = 2.
Proof. vm_compute. reflexivity. Qed.

Lemma flaky_post_answers_first_post (id : Z) :
  1 <= id < 2 ->
  is_Some (flaky_post (Z.to_nat (id - 1)) probcomp_url
             (snd (session_post sample_repr id two_empty_sessions))).
Proof.
  intros H. assert (id = 1) as -> by lia. exists "OK". vm_compute. reflexivity.
Qed.

Lemma flaky_post_fails_second_post :
  flaky_post (Z.to_nat (2 - 1)) probcomp_url
    (snd (session_post sample_repr 2 two_empty_sessions)) = None.
Proof. vm_compute. reflexivity. Qed.

(** Two sessions with the same dump, the first POST answered, the
    second not. *)
Lemma send_session_data_stops_at_failed_post_witness :
  1 <= 2 <= current_session_id two_empty_sessions
  /\ (forall id, 1 <= id < 2 ->
        is_Some (flaky_post (Z.to_nat (id - 1)) probcomp_url
                   (snd (session_post sample_repr id two_empty_sessions))))
  /\ flaky_post (Z.to_nat (2 - 1)) probcomp_url
       (snd (session_post sample_repr 2 two_empty_sessions)) = None
  /\ session_post sample_repr 1 two_empty_sessions
     = session_post sample_repr 2 two_empty_sessions
  /\ exists self',
      send_session_data sample_repr flaky_post two_empty_sessions
      = (self', map (fun id => session_post sample_repr id two_empty_sessions) (seqZ 1 2),
         Some RequestException)
      /\ bdb self' = bdb two_empty_sessions.
Proof.
  assert (1 <= 2 <= current_session_id two_empty_sessions) as H
    by (rewrite two_empty_sessions_session; lia).
  split; [exact H|]. split; [exact flaky_post_answers_first_post|].
  split; [exact flaky_post_fails_second_post|].
  split; [vm_compute; reflexivity|].
  exact (send_session_data_stops_at_failed_post sample_repr flaky_post
           two_empty_sessions 2 H
           flaky_post_answers_first_post flaky_post_fails_second_post).
Defined.

Lemma send_session_data_prints_three_lines_per_session_witness :
  (forall n form, is_Some (sample_post n probcomp_url form))
  /\ length (out (fst (fst (send_session_data sample_repr sample_post second_run)))) = 7%nat.
Proof.
  split; [exact sample_post_answers|].
  rewrite (send_session_data_prints_three_lines_per_session sample_repr sample_post
             second_run sample_post_answers).
  vm_compute. reflexivity.
Defined.

Lemma dump_current_session_never_raises_witness :
  consistent (sqlite3 (bdb first_run))
  /\ dump_current_session_as_json sample_repr
       (run_steps sample_repr [StepClear; StepRestart] (__init__ (bdb first_run)))
     = inr "[]".
Proof.
  split; [exact first_run_consistent|].
  rewrite (proj2 (dump_current_session_never_raises sample_repr (bdb first_run)
                    [StepClear; StepRestart] first_run_consistent)).
  vm_compute. reflexivity.
Defined.
